(** * On-board computer (komp_poklad.ino): pulse counting, snapshot,
      consumption and low-fuel alarm

    The sketch runs on a SparkFun Pro Micro (ATmega32U4, avr-gcc): [int] and
    [short] are 16 bits wide, [long] is 32 bits wide, and both [float] and
    [double] are the 32-bit IEEE 754 binary format.  Integers are modelled
    as [Z] with the wrap-around of their width written out, floating-point
    values as [spec_float] at precision 24 and maximal exponent 128 with the
    round-to-nearest-even operations of the Standard Library's [SpecFloat].
    Calls into the Arduino libraries (display, pins, delays) are kept as a
    trace of events; sensor readings are arguments of the functions that
    read them.

    Modelled: [consumption], [buzz], [fuel], [rpm], the three interrupt
    handlers, and the distance-triggered part of [loop] with its critical
    section.  Not modelled: [temp], [rtc], [voltage] and the two timed
    blocks of [loop], which only read sensors and refresh the display. *)

From Stdlib Require Import ZArith List String Bool Lia.
From Stdlib Require Import Floats.SpecFloat.
From Stdlib Require Import Ascii DecimalString.
Import ListNotations.
Open Scope Z_scope.

(** ** Machine integers *)

Module Int.

Definition u16 (z : Z) : Z := z mod 65536.

Definition s16 (z : Z) : Z :=
  let r := z mod 65536 in if r <? 32768 then r else r - 65536.

Definition u32 (z : Z) : Z := z mod 4294967296.

Definition in_u16 (z : Z) : Prop := 0 <= z < 65536.

End Int.

(** ** 32-bit floating point *)

Module F32.

Definition prec : Z := 24.
Definition emax : Z := 128.

Definition t : Type := spec_float.

Definition of_Z (z : Z) : t := binary_normalize prec emax z 0 false.

Definition sub : t -> t -> t := SFsub prec emax.
Definition mul : t -> t -> t := SFmul prec emax.
Definition div : t -> t -> t := SFdiv prec emax.
Definition opp : t -> t := SFopp.
Definition ltb : t -> t -> bool := SFltb.
Definition leb : t -> t -> bool := SFleb.

Definition zero : t := S754_zero false.

(** C comparison operators: [x > y] is [gtb x y], [x >= y] is [geb x y];
    every comparison with a NaN is false. *)
Definition gtb (x y : t) : bool := ltb y x.
Definition geb (x y : t) : bool := leb y x.

(** Conversion of a float to an integer type: the fractional part is
    discarded (C 6.3.1.4).  On an integer-valued float it is exact. *)
Definition to_Z (x : t) : Z :=
  match x with
  | S754_finite s m e =>
      let a := match e with
               | Zneg p => Z.shiftr (Zpos m) (Zpos p)
               | _ => Z.shiftl (Zpos m) e
               end in
      if s then - a else a
  | _ => 0
  end.

Definition is_zero (x : t) : bool :=
  match x with S754_zero _ => true | _ => false end.

Definition is_nan (x : t) : bool :=
  match x with S754_nan => true | _ => false end.

(** Strictly positive and finite. *)
Definition is_pos (x : t) : bool :=
  match x with S754_finite false _ _ => true | _ => false end.

End F32.

(** ** Effects

    A run of a function is the list of the library calls it makes, in
    order, together with its result.  Every division is recorded with its
    operands.  An integer division by zero is undefined behaviour (C 6.5.5):
    the run stops there without a result.  A floating-point division by zero
    does not stop the run: it yields an infinity or a NaN. *)

Inductive lcd_op : Type :=
| SetCursor (col row : Z)
| PrintStr (s : string)
| PrintFloat (x : F32.t)
| PrintInt (n : Z)
| WriteByte (b : Z).

Inductive event : Type :=
| Lcd (op : lcd_op)
| DigitalWrite (pin : Z) (high : bool)
| Delay (ms : Z)
| FDiv (num den : F32.t)
| IDiv (num den : Z).

Definition Eff (A : Type) : Type := (list event * option A)%type.

Definition ret {A : Type} (a : A) : Eff A := ([], Some a).

Definition bind {A B : Type} (c : Eff A) (k : A -> Eff B) : Eff B :=
  match c with
  | (tr, Some a) => let (tr', r) := k a in (tr ++ tr', r)
  | (tr, None) => (tr, None)
  end.

Definition emit (e : event) : Eff unit := ([e], Some tt).

Declare Scope eff_scope.
Delimit Scope eff_scope with eff.
Notation "x <- c ;; k" := (bind c (fun x => k))
  (at level 61, c at next level, right associativity) : eff_scope.
Notation "c ;; k" := (bind c (fun _ => k))
  (at level 61, right associativity) : eff_scope.
Open Scope eff_scope.

Definition lcd (op : lcd_op) : Eff unit := emit (Lcd op).

Definition fdiv (x y : F32.t) : Eff F32.t :=
  emit (FDiv x y) ;; ret (F32.div x y).

(** Integer division, truncating toward zero. *)
Definition idiv (x y : Z) : Eff Z :=
  emit (IDiv x y) ;;
  if y =? 0 then ([], None) else ret (Z.quot x y).

Definition trace {A : Type} (c : Eff A) : list event := fst c.
Definition result {A : Type} (c : Eff A) : option A := snd c.

(** ** Constants set by the user (lines 49-53, 70) *)

Definition fuelMax : Z := 21.
Definition fuelAlarm : Z := 4.
Definition buzzer : Z := 5.
Definition distance : Z := 500.
Definition wheelCircum : F32.t :=
  Eval vm_compute in F32.div (F32.of_Z 1915) (F32.of_Z 1000).
Definition interval : Z := 5000.

(** ** Fuel consumption (lines 288-330) *)

(** Arduino.h: [#define abs(x) ((x)>0?(x):-(x))]. *)
Definition abs (x : F32.t) : F32.t :=
  if F32.gtb x F32.zero then x else F32.opp x.

Definition blank20 : string := "                    ".
Definition blank15 : string := "               ".
Definition blank3 : string := "   ".

Definition consumption (copyFlow1 copyFlow2 copyWheel : F32.t) : Eff unit :=
  copyFlow1 <- fdiv copyFlow1 (F32.of_Z 450) ;;
  copyFlow2 <- fdiv copyFlow2 (F32.of_Z 450) ;;
  let diff := F32.mul (F32.of_Z 100) (abs (F32.sub copyFlow1 copyFlow2)) in
  let copyWheel := F32.mul copyWheel wheelCircum in
  coeff <- fdiv (F32.of_Z 100000) copyWheel ;;
  quotient <- fdiv diff copyWheel ;;
  let consumption := F32.mul quotient coeff in
  (if F32.gtb consumption F32.zero then
     lcd (SetCursor 0 2) ;;
     lcd (PrintStr blank20) ;;
     lcd (SetCursor 0 2) ;;
     lcd (PrintFloat consumption) ;;
     lcd (PrintStr " L/100 km")
   else
     lcd (SetCursor 0 2) ;;
     lcd (PrintStr blank20) ;;
     lcd (SetCursor 0 2) ;;
     lcd (PrintStr "0.00 L/100 km")) ;;
  (if F32.leb copyWheel F32.zero then
     lcd (SetCursor 0 2) ;;
     lcd (PrintStr blank15) ;;
     perMinute <- idiv 60 interval ;;
     let consumption := F32.mul (F32.of_Z perMinute) diff in
     lcd (SetCursor 0 2) ;;
     lcd (PrintFloat consumption) ;;
     lcd (PrintStr " L/min")
   else ret tt) ;;
  lcd (SetCursor 0 3) ;;
  lcd (PrintStr blank3) ;;
  lcd (SetCursor 0 3) ;;
  lcd (PrintFloat copyFlow1) ;;
  lcd (SetCursor 5 3) ;;
  lcd (PrintStr blank3) ;;
  lcd (SetCursor 5 3) ;;
  lcd (PrintFloat copyFlow2) ;;
  lcd (SetCursor 10 3) ;;
  lcd (PrintStr blank3) ;;
  lcd (SetCursor 10 3) ;;
  lcd (PrintFloat copyWheel).

(** ** Low-fuel alarm (lines 190-215) *)

(** [buzz(char &buzzDIS)]: the result is the value left in the referenced
    variable. *)
Definition buzz (buzzDIS : Z) : Eff Z :=
  (if buzzDIS =? 0 then
     emit (DigitalWrite buzzer false) ;;
     emit (Delay 500) ;;
     emit (DigitalWrite buzzer true) ;;
     emit (Delay 250) ;;
     emit (DigitalWrite buzzer false) ;;
     emit (Delay 500) ;;
     emit (DigitalWrite buzzer true)
   else ret tt) ;;
  ret 1.

(** Line 207: [int fuelPerc = (analog * (5.0 / 1023.0) * 300) / 5.0]. *)
Definition fuel_percent (analog : Z) : Z :=
  let volts :=
    F32.mul (F32.of_Z analog) (F32.div (F32.of_Z 5) (F32.of_Z 1023)) in
  Int.s16 (F32.to_Z (F32.div (F32.mul volts (F32.of_Z 300)) (F32.of_Z 5))).

(** Lines 210-215; [100 * fuelAlarm/fuelMax] is integer arithmetic. *)
Definition alarm_policy (fuelPerc buzzDIS : Z) : Eff Z :=
  if fuelPerc >=? 80 then ret 0
  else if fuelPerc <=? Z.quot (100 * fuelAlarm) fuelMax then buzz buzzDIS
  else ret buzzDIS.

(** Lines 219-226: the loop over [char i] printing full bars. *)
Fixpoint full_bars (n : nat) (i fuelPerc : Z) : Eff unit :=
  match n with
  | O => ret tt
  | S n' =>
      if (i <=? 10) && ((i <? Z.quot fuelPerc 10) && (fuelPerc >? 5)) then
        lcd (WriteByte 1) ;; full_bars n' (i + 1) fuelPerc
      else ret tt
  end.

(** Lines 236-239: the loop over [byte i] blanking the rest of the bar. *)
Fixpoint clean_bars (n : nat) (i : Z) : Eff unit :=
  match n with
  | O => ret tt
  | S n' =>
      if i <=? 10 then
        lcd (SetCursor i 1) ;; lcd (PrintStr " ") ;; clean_bars n' (i + 1)
      else ret tt
  end.

(** Lines 217-259. *)
Definition fuel_display (fuelPerc : Z) : Eff unit :=
  lcd (SetCursor 0 1) ;;
  full_bars 11 0 fuelPerc ;;
  cleanup <- (if Z.rem fuelPerc 10 >=? 5
              then lcd (WriteByte 0) ;; ret 1
              else ret 0) ;;
  clean_bars 11 ((Z.quot fuelPerc 10 + cleanup) mod 256) ;;
  lcd (SetCursor 10 1) ;;
  lcd (WriteByte 2) ;;
  (if fuelPerc =? 100 then
     lcd (SetCursor 16 1)
   else if fuelPerc <=? 9 then
     lcd (SetCursor 16 1) ;; lcd (PrintStr "   ") ;; lcd (SetCursor 18 1)
   else
     lcd (SetCursor 16 1) ;; lcd (PrintStr "  ") ;; lcd (SetCursor 17 1)) ;;
  lcd (PrintInt fuelPerc) ;;
  lcd (PrintStr "%").

(** ** Engine speed (lines 276-284)

    [pulse] is the value returned by [pulseIn]; it is 0 when no pulse
    arrives before the time-out.  The literal 60000 does not fit a 16-bit
    [int], so the division is done in [long]; the quotient is then stored
    in an [int]. *)
Definition rpm (pulse : Z) : Eff unit :=
  let duration := Int.s16 pulse in
  quotient <- idiv 60000 duration ;;
  let RPM := Int.s16 quotient in
  lcd (SetCursor 15 2) ;;
  lcd (PrintStr "     ") ;;
  lcd (SetCursor 15 2) ;;
  lcd (PrintInt RPM).

(** ** Global variables (lines 43, 63-69) *)

Record globals : Type := mkGlobals {
  buzzDIS : Z;
  countFlow1 : Z;
  countFlow2 : Z;
  countWheel : Z;
  copyFlow1 : F32.t;
  copyFlow2 : F32.t;
  copyWheel : F32.t;
  lastRead : Z
}.

Definition power_on : globals :=
  mkGlobals 0 0 0 0 F32.zero F32.zero F32.zero 0.

Definition set_buzzDIS (g : globals) (v : Z) : globals :=
  mkGlobals v (countFlow1 g) (countFlow2 g) (countWheel g)
            (copyFlow1 g) (copyFlow2 g) (copyWheel g) (lastRead g).
Definition set_countFlow1 (g : globals) (v : Z) : globals :=
  mkGlobals (buzzDIS g) v (countFlow2 g) (countWheel g)
            (copyFlow1 g) (copyFlow2 g) (copyWheel g) (lastRead g).
Definition set_countFlow2 (g : globals) (v : Z) : globals :=
  mkGlobals (buzzDIS g) (countFlow1 g) v (countWheel g)
            (copyFlow1 g) (copyFlow2 g) (copyWheel g) (lastRead g).
Definition set_countWheel (g : globals) (v : Z) : globals :=
  mkGlobals (buzzDIS g) (countFlow1 g) (countFlow2 g) v
            (copyFlow1 g) (copyFlow2 g) (copyWheel g) (lastRead g).
Definition set_copyFlow1 (g : globals) (v : F32.t) : globals :=
  mkGlobals (buzzDIS g) (countFlow1 g) (countFlow2 g) (countWheel g)
            v (copyFlow2 g) (copyWheel g) (lastRead g).
Definition set_copyFlow2 (g : globals) (v : F32.t) : globals :=
  mkGlobals (buzzDIS g) (countFlow1 g) (countFlow2 g) (countWheel g)
            (copyFlow1 g) v (copyWheel g) (lastRead g).
Definition set_copyWheel (g : globals) (v : F32.t) : globals :=
  mkGlobals (buzzDIS g) (countFlow1 g) (countFlow2 g) (countWheel g)
            (copyFlow1 g) (copyFlow2 g) v (lastRead g).
Definition set_lastRead (g : globals) (v : Z) : globals :=
  mkGlobals (buzzDIS g) (countFlow1 g) (countFlow2 g) (countWheel g)
            (copyFlow1 g) (copyFlow2 g) (copyWheel g) v.

(** [fuel()] (lines 205-260); [analog] is the value read from pin A1. *)
Definition fuel (analog : Z) (g : globals) : Eff globals :=
  let fuelPerc := fuel_percent (Int.s16 analog) in
  latch <- alarm_policy fuelPerc (buzzDIS g) ;;
  fuel_display fuelPerc ;;
  ret (set_buzzDIS g latch).

(** ** Interrupt handlers (lines 366-379) *)

Inductive source : Type := Flow1 | Flow2 | Wheel.

Definition isrFlow1 (g : globals) : globals :=
  set_countFlow1 g (Int.u16 (countFlow1 g + 1)).
Definition isrFlow2 (g : globals) : globals :=
  set_countFlow2 g (Int.u16 (countFlow2 g + 1)).
Definition isrWheel (g : globals) : globals :=
  set_countWheel g (Int.u16 (countWheel g + 1)).

(** [attachInterrupt] calls of [setup] (lines 102-104). *)
Definition handler (src : source) : globals -> globals :=
  match src with
  | Flow1 => isrFlow1
  | Flow2 => isrFlow2
  | Wheel => isrWheel
  end.

Definition counter (src : source) (g : globals) : Z :=
  match src with
  | Flow1 => countFlow1 g
  | Flow2 => countFlow2 g
  | Wheel => countWheel g
  end.

Definition copy (src : source) (g : globals) : F32.t :=
  match src with
  | Flow1 => copyFlow1 g
  | Flow2 => copyFlow2 g
  | Wheel => copyWheel g
  end.

(** ** The distance-triggered part of [loop] (lines 349-361) *)

Inductive stmt : Type :=
| AdvanceLastRead   (* lastRead += interval;    *)
| NoInterrupts      (* noInterrupts();          *)
| SaveFlow1         (* copyFlow1 = countFlow1;  *)
| SaveFlow2         (* copyFlow2 = countFlow2;  *)
| SaveWheel         (* copyWheel = countWheel;  *)
| ClearFlow1        (* countFlow1 = 0;          *)
| ClearFlow2        (* countFlow2 = 0;          *)
| ClearWheel        (* countWheel = 0;          *)
| Interrupts.       (* interrupts();            *)

Definition exec_mem (s : stmt) (g : globals) : globals :=
  match s with
  | AdvanceLastRead => set_lastRead g (Int.u32 (lastRead g + interval))
  | SaveFlow1 => set_copyFlow1 g (F32.of_Z (countFlow1 g))
  | SaveFlow2 => set_copyFlow2 g (F32.of_Z (countFlow2 g))
  | SaveWheel => set_copyWheel g (F32.of_Z (countWheel g))
  | ClearFlow1 => set_countFlow1 g 0
  | ClearFlow2 => set_countFlow2 g 0
  | ClearWheel => set_countWheel g 0
  | NoInterrupts | Interrupts => g
  end.

(** Lines 352-359. *)
Definition critical_section : list stmt :=
  [NoInterrupts; SaveFlow1; SaveFlow2; SaveWheel;
   ClearFlow1; ClearFlow2; ClearWheel; Interrupts].

(** The effect of lines 352-359 on the variables. *)
Definition snapshot_reset (g : globals) : globals :=
  fold_left (fun g s => exec_mem s g) critical_section g.

(** Line 349: [countWheel * wheelCircum >= distance]. *)
Definition distance_reached (g : globals) : bool :=
  F32.geb (F32.mul (F32.of_Z (countWheel g)) wheelCircum) (F32.of_Z distance).

(** ** Interrupts

    The processor has a global interrupt enable bit and one flag per
    external interrupt line.  A rising edge on a line sets its flag.  With
    interrupts enabled, the handler of a flagged line runs and the flag is
    cleared; with interrupts disabled the flag stays set (further edges on
    that line leave it set) until interrupts are enabled again, and the
    handler then runs before the next statement of the main program.
    Handlers run with interrupts disabled and so do not interrupt one
    another.  Statements of the main program and handler runs are atomic in
    this model. *)

Record machine : Type := mkMachine {
  mem : globals;
  enabled : bool;
  flagFlow1 : bool;
  flagFlow2 : bool;
  flagWheel : bool
}.

Definition flag (src : source) (m : machine) : bool :=
  match src with
  | Flow1 => flagFlow1 m
  | Flow2 => flagFlow2 m
  | Wheel => flagWheel m
  end.

Definition raise_flag (src : source) (m : machine) : machine :=
  match src with
  | Flow1 => mkMachine (mem m) (enabled m) true (flagFlow2 m) (flagWheel m)
  | Flow2 => mkMachine (mem m) (enabled m) (flagFlow1 m) true (flagWheel m)
  | Wheel => mkMachine (mem m) (enabled m) (flagFlow1 m) (flagFlow2 m) true
  end.

Definition lower_flag (src : source) (m : machine) : machine :=
  match src with
  | Flow1 => mkMachine (mem m) (enabled m) false (flagFlow2 m) (flagWheel m)
  | Flow2 => mkMachine (mem m) (enabled m) (flagFlow1 m) false (flagWheel m)
  | Wheel => mkMachine (mem m) (enabled m) (flagFlow1 m) (flagFlow2 m) false
  end.

Definition call_handler (src : source) (m : machine) : machine :=
  mkMachine (handler src (mem m)) (enabled m)
            (flagFlow1 m) (flagFlow2 m) (flagWheel m).

Definition serve (src : source) (m : machine) : machine :=
  if flag src m then call_handler src (lower_flag src m) else m.

(** Pending handlers run in the order of their interrupt numbers
    (2, 3, 4: flow meter 2, wheel, flow meter 1). *)
Definition dispatch (m : machine) : machine :=
  if enabled m then serve Flow1 (serve Wheel (serve Flow2 m)) else m.

Definition exec (s : stmt) (m : machine) : machine :=
  let m := dispatch m in
  mkMachine (exec_mem s (mem m))
            (match s with
             | NoInterrupts => false
             | Interrupts => true
             | _ => enabled m
             end)
            (flagFlow1 m) (flagFlow2 m) (flagWheel m).

Definition edge (src : source) (m : machine) : machine :=
  dispatch (raise_flag src (dispatch m)).

Inductive action : Type :=
| Edge (src : source)
| Exec (s : stmt).

Definition step (m : machine) (a : action) : machine :=
  match a with
  | Edge src => edge src m
  | Exec s => exec s m
  end.

Definition run (acts : list action) (m : machine) : machine :=
  fold_left step acts m.

Fixpoint stmts_of (acts : list action) : list stmt :=
  match acts with
  | [] => []
  | Edge _ :: rest => stmts_of rest
  | Exec s :: rest => s :: stmts_of rest
  end.


Definition source_eqb (a b : source) : bool :=
  match a, b with
  | Flow1, Flow1 | Flow2, Flow2 | Wheel, Wheel => true
  | _, _ => false
  end.




(** ** Pulses and snapshots

    Outside lines 352-359 interrupts are enabled, so each pulse runs its
    handler at once; lines 352-359 run without any handler in between.  A
    run of the program is then a list of handler runs and snapshots. *)

Inductive tick : Type :=
| Pulse (src : source)
| Snapshot.

Fixpoint ticks_run (ticks : list tick) (g : globals)
  : globals * list globals :=
  match ticks with
  | [] => (g, [])
  | Pulse src :: rest => ticks_run rest (handler src g)
  | Snapshot :: rest =>
      let g' := snapshot_reset g in
      let (final, snaps) := ticks_run rest g' in
      (final, g' :: snaps)
  end.




Definition well_formed (g : globals) : Prop :=
  Int.in_u16 (countFlow1 g) /\ Int.in_u16 (countFlow2 g)
  /\ Int.in_u16 (countWheel g).

(** ** Checking a predicate on every 16-bit value *)

Fixpoint all_from (n : nat) (z : Z) (P : Z -> bool) : bool :=
  match n with
  | O => true
  | S n' => P z && all_from n' (z + 1) P
  end.

Definition all_u16 (P : Z -> bool) : bool := all_from (Z.to_nat 65536) 0 P.

(** ** Values and trace pieces of [consumption] *)

(** The values computed on lines 290-295 and 312. *)
Definition liters (pulses : F32.t) : F32.t := F32.div pulses (F32.of_Z 450).
Definition fuel_diff (a b : F32.t) : F32.t :=
  F32.mul (F32.of_Z 100) (abs (F32.sub (liters a) (liters b))).
Definition meters (w : F32.t) : F32.t := F32.mul w wheelCircum.
Definition per_100km (a b w : F32.t) : F32.t :=
  F32.mul (F32.div (fuel_diff a b) (meters w))
          (F32.div (F32.of_Z 100000) (meters w)).
Definition per_minute (a b : F32.t) : F32.t :=
  F32.mul (F32.of_Z (Z.quot 60 interval)) (fuel_diff a b).

(** The pieces of the trace of [consumption]. *)
Definition divisions (a b w : F32.t) : list event :=
  [FDiv a (F32.of_Z 450); FDiv b (F32.of_Z 450);
   FDiv (F32.of_Z 100000) (meters w); FDiv (fuel_diff a b) (meters w)].
Definition show_per_100km (v : F32.t) : list event :=
  [Lcd (SetCursor 0 2); Lcd (PrintStr blank20); Lcd (SetCursor 0 2);
   Lcd (PrintFloat v); Lcd (PrintStr " L/100 km")].
Definition show_zero_per_100km : list event :=
  [Lcd (SetCursor 0 2); Lcd (PrintStr blank20); Lcd (SetCursor 0 2);
   Lcd (PrintStr "0.00 L/100 km")].
Definition show_per_minute (v : F32.t) : list event :=
  [Lcd (SetCursor 0 2); Lcd (PrintStr blank15); IDiv 60 interval;
   Lcd (SetCursor 0 2); Lcd (PrintFloat v); Lcd (PrintStr " L/min")].
Definition show_counters (a b w : F32.t) : list event :=
  [Lcd (SetCursor 0 3); Lcd (PrintStr blank3); Lcd (SetCursor 0 3);
   Lcd (PrintFloat (liters a));
   Lcd (SetCursor 5 3); Lcd (PrintStr blank3); Lcd (SetCursor 5 3);
   Lcd (PrintFloat (liters b));
   Lcd (SetCursor 10 3); Lcd (PrintStr blank3); Lcd (SetCursor 10 3);
   Lcd (PrintFloat (meters w))].

(** The formulas of the specification, in the same arithmetic:
    [fuelDelta = |litersIn - litersOut|],
    [(fuelDelta / distanceMeters) * 100000], and
    [fuelDelta * (60 / windowSeconds)] with the window of [interval]
    milliseconds expressed in seconds. *)
Definition spec_fuelDelta (a b : F32.t) : F32.t :=
  SFabs (F32.sub (liters a) (liters b)).
Definition spec_per_100km (a b w : F32.t) : F32.t :=
  F32.mul (F32.div (spec_fuelDelta a b) (meters w)) (F32.of_Z 100000).
Definition spec_per_minute (a b : F32.t) : F32.t :=
  F32.mul (spec_fuelDelta a b)
          (F32.div (F32.of_Z 60) (F32.div (F32.of_Z interval) (F32.of_Z 1000))).

(** The claim of C3 at one snapshot: no division has a zero divisor. *)
Definition zero_divisor (e : event) : bool :=
  match e with
  | FDiv _ d => F32.is_zero d
  | IDiv _ d => d =? 0
  | _ => false
  end.

Definition divides_by_zero (tr : list event) : bool := existsb zero_divisor tr.


(** Facts checked on each of the 65536 values a counter can hold: its
    conversion to [float] is exact; when it is not zero, the conversion and
    its product with [wheelCircum] are strictly positive; and with the same
    count on both flow meters the value of [diff] is a zero. *)
Definition counter_check (z : Z) : bool :=
  let x := F32.of_Z z in
  let l := liters x in
  (F32.to_Z x =? z)
  && ((z =? 0) || (F32.is_pos x && F32.is_pos (meters x)))
  && F32.is_zero (F32.mul (F32.of_Z 100) (abs (F32.sub l l))).

(** ** States and schedules of the machine *)

(** Interrupts enabled and no flag set: the state of the machine between
    two statements outside lines 352-359. *)
Definition settled (m : machine) : Prop :=
  enabled m = true /\ flagFlow1 m = false /\ flagFlow2 m = false
  /\ flagWheel m = false.

Definition inside_section : list stmt :=
  [SaveFlow1; SaveFlow2; SaveWheel; ClearFlow1; ClearFlow2; ClearWheel].

Definition example_machine : machine :=
  mkMachine (mkGlobals 0 903 450 262 F32.zero F32.zero F32.zero 0)
            true false false false.

Definition example_inside : list action :=
  [Exec SaveFlow1; Edge Flow1; Exec SaveFlow2; Exec SaveWheel; Edge Wheel;
   Exec ClearFlow1; Exec ClearFlow2; Edge Flow1; Exec ClearWheel].


(** ** Runs of pulses and snapshots *)


(** The engine runs with the vehicle at rest while 65536 pulses of the
    first flow meter arrive; the vehicle then moves 262 wheel turns, which
    reaches the distance of line 349, and the snapshot is taken. *)
Definition idle_then_drive : list tick :=
  repeat (Pulse Flow1) (Z.to_nat 65536) ++ repeat (Pulse Wheel) 262.


(** A run of handler calls and snapshots as a schedule of the machine in
    which no edge arrives inside the critical section. *)
Definition actions_of (t : tick) : list action :=
  match t with
  | Pulse src => [Edge src]
  | Snapshot => map Exec critical_section
  end.


(** ** Runs of the alarm policy *)

(** The events of one alarm: two beeps. *)
Definition alarm_pattern : list event :=
  [DigitalWrite buzzer false; Delay 500; DigitalWrite buzzer true; Delay 250;
   DigitalWrite buzzer false; Delay 500; DigitalWrite buzzer true].

Definition latch_after (c : Eff Z) (old : Z) : Z :=
  match result c with
  | Some b => b
  | None => old
  end.

(** Successive evaluations of lines 210-215: for each sample, the events
    of the evaluation and the value of [buzzDIS] after it. *)
Fixpoint policy_run (samples : list Z) (buzzDIS : Z) : list (list event * Z) :=
  match samples with
  | [] => []
  | p :: rest =>
      let c := alarm_policy p buzzDIS in
      let b := latch_after c buzzDIS in
      (trace c, b) :: policy_run rest b
  end.

Definition fired (log : list (list event * Z)) : list bool :=
  map (fun entry => match fst entry with [] => false | _ => true end) log.

(** A re-arm: [buzzDIS] goes from non-zero to zero. *)
Fixpoint rearmed (buzzDIS : Z) (log : list (list event * Z)) : list bool :=
  match log with
  | [] => []
  | (_, b) :: rest => (negb (buzzDIS =? 0) && (b =? 0)) :: rearmed b rest
  end.

(** The alarm policy of the specification (section 4.5), with the low
    threshold [100 * alarmLiters / tankCapacityLiters] in whole percent. *)
Inductive alarm_state : Type := Armed | Disarmed.

Definition spec_low : Z := 19.

Definition spec_step (st : alarm_state) (p : Z) : alarm_state * bool :=
  match st with
  | Armed =>
      if p >=? 80 then (Armed, false)
      else if p <=? spec_low then (Disarmed, true)
      else (Armed, false)
  | Disarmed =>
      if p >=? 80 then (Armed, false) else (Disarmed, false)
  end.

Fixpoint spec_run (samples : list Z) (st : alarm_state) : list bool :=
  match samples with
  | [] => []
  | p :: rest =>
      let (st', f) := spec_step st p in f :: spec_run rest st'
  end.

Definition state_of (buzzDIS : Z) : alarm_state :=
  if buzzDIS =? 0 then Armed else Disarmed.

(** * The rest of the sketch

    [rtc], [temp], [voltage], [setup] and the two timed blocks of [loop].
    The clock is read over the I2C bus ([Wire]) and the thermometer over a
    one-wire bus ([OneWire]); the commands sent on the buses and the other
    library calls of [setup] are events of a wider trace. *)

Inductive bus_op : Type :=
| WireBeginTransmission (address : Z)
| WireWrite (b : Z)
| WireEndTransmission
| WireRequestFrom (address quantity : Z)
| WireRead
| OwSearch
| OwResetSearch
| OwReset
| OwSelect (rom : list Z)
| OwWrite (b : Z) (power : bool)
| OwRead.

Inductive io : Type :=
| Dev (e : event)
| Bus (op : bus_op)
| LcdBegin (cols rows : Z)
| LcdBacklight
| LcdCreateChar (location : Z) (glyph : list Z)
| PinMode (pin : Z) (output : bool)
| AttachInterrupt (number : Z) (src : source).

Definition IO (A : Type) : Type := (list io * option A)%type.

Definition io_ret {A : Type} (a : A) : IO A := ([], Some a).

Definition io_bind {A B : Type} (c : IO A) (k : A -> IO B) : IO B :=
  match c with
  | (tr, Some a) => let (tr', r) := k a in (tr ++ tr', r)
  | (tr, None) => (tr, None)
  end.

Definition io_emit (e : io) : IO unit := ([e], Some tt).

(** A run of a function that uses no bus. *)
Definition lift {A : Type} (c : Eff A) : IO A := (map Dev (fst c), snd c).

Declare Scope io_scope.
Delimit Scope io_scope with io.
Notation "x <- c ;; k" := (io_bind c (fun x => k))
  (at level 61, c at next level, right associativity) : io_scope.
Notation "c ;; k" := (io_bind c (fun _ => k))
  (at level 61, right associativity) : io_scope.

Definition bus (op : bus_op) : IO unit := io_emit (Bus op).
Definition show (op : lcd_op) : IO unit := io_emit (Dev (Lcd op)).

Definition u8 (z : Z) : Z := z mod 256.

(** Decimal text of an integer, as [Print::print] and [String(...)] give
    it. *)
Definition decimal (n : Z) : string := NilZero.string_of_int (Z.to_int n).

(** ** Clock (lines 156-186) *)

(** Line 169, in [int] arithmetic, stored in a [byte]. *)
Definition decode_minutes (minutes : Z) : Z :=
  u8 (Z.shiftr (Z.land minutes 240) 4 * 10 + Z.land minutes 15).

(** Line 170. *)
Definition decode_hours (hours : Z) : Z :=
  u8 (Z.shiftr (Z.land hours 32) 5 * 20
      + Z.shiftr (Z.land hours 16) 4 * 10
      + Z.land hours 15
      + 1).

(** Lines 171-184. *)
Definition rtc_show (hours minutes : Z) : IO unit :=
  (show (SetCursor 15 0) ;;
   (if hours >=? 10 then show (PrintInt hours)
    else show (PrintStr ("0" ++ decimal hours))) ;;
   show (PrintStr ":") ;;
   (if minutes <? 10 then show (PrintStr ("0" ++ decimal minutes))
    else show (PrintInt minutes)))%io.

(** Lines 163-185.  [buffer] holds the bytes received from the clock;
    [Wire.read()] on an empty buffer gives -1, which is 255 in a [byte]. *)
Fixpoint rtc_loop (buffer : list Z) : IO unit :=
  match buffer with
  | [] => io_ret tt
  | seconds :: after_seconds =>
      let reads := (bus WireRead ;; bus WireRead ;; bus WireRead)%io in
      match after_seconds with
      | [] =>
          (reads ;; rtc_show (decode_hours 255) (decode_minutes 255))%io
      | minutes :: after_minutes =>
          match after_minutes with
          | [] =>
              (reads ;;
               rtc_show (decode_hours 255) (decode_minutes (u8 minutes)))%io
          | hours :: rest =>
              (reads ;;
               rtc_show (decode_hours (u8 hours)) (decode_minutes (u8 minutes)) ;;
               rtc_loop rest)%io
          end
      end
  end.

Definition rtc (buffer : list Z) : IO unit :=
  (bus (WireBeginTransmission 104) ;;
   bus (WireWrite 0) ;;
   bus WireEndTransmission ;;
   bus (WireRequestFrom 104 3) ;;
   rtc_loop buffer)%io.

(** ** Battery voltage (lines 264-272)

    [abs] is a macro: its argument, the division by 10, is evaluated once
    for the test and once for the value. *)
Definition voltage (analog : Z) : Eff unit :=
  let analog := Int.s16 analog in
  let voltage :=
    F32.mul (F32.mul (F32.of_Z analog) (F32.div (F32.of_Z 5) (F32.of_Z 1023)))
            (F32.of_Z 30) in
  lcd (SetCursor 7 0) ;;
  lcd (PrintStr "     ") ;;
  lcd (SetCursor 7 0) ;;
  tested <- fdiv voltage (F32.of_Z 10) ;;
  (if F32.gtb tested F32.zero then
     value <- fdiv voltage (F32.of_Z 10) ;; lcd (PrintFloat value)
   else
     value <- fdiv voltage (F32.of_Z 10) ;; lcd (PrintFloat (F32.opp value))) ;;
  lcd (PrintStr " V").

(** ** Thermometer (lines 109-152) *)

(** Lines 139-141: [raw] is an [int16_t]. *)
Definition temp_raw (data0 data1 : Z) : Z :=
  Int.s16 (Z.lor (Z.shiftl data1 8) data0).

Definition temp_celsius (raw : Z) : Z :=
  Int.s16 (Z.quot (Int.s16 (Z.land raw (-2))) 16).

(** Lines 143-151; [(char)223] is the degree sign. *)
Definition temp_show (celsius : Z) : IO unit :=
  (show (SetCursor 0 0) ;;
   show (PrintStr "      ") ;;
   show (SetCursor 0 0) ;;
   show (PrintInt celsius) ;;
   show (WriteByte 223) ;;
   show (PrintStr "C") ;;
   (if celsius <? 100 then show (PrintStr " ") else io_ret tt))%io.

(** Lines 132-134: nine reads of the scratchpad. *)
Fixpoint temp_reads (n : nat) : IO unit :=
  match n with
  | O => io_ret tt
  | S n' => (bus OwRead ;; temp_reads n')%io
  end.

Section Sketch.

(** [OneWire::crc8], of the library. *)
Variable crc8 : list Z -> Z.

(** [found] is the result of [ds.search(addr)], [addr] the eight bytes of
    [addr] after that call, and [scratch i] the byte given by the read
    number [i] of the scratchpad. *)
Definition temp (found : bool) (addr : list Z) (scratch : nat -> Z)
  : IO unit :=
  (bus OwSearch ;;
   (if found then io_ret tt
    else bus OwResetSearch ;; io_emit (Dev (Delay 250))) ;;
   if negb (crc8 (firstn 7 addr) =? nth 7 addr 0) then io_ret tt
   else
     bus OwReset ;;
     bus (OwSelect addr) ;;
     bus (OwWrite 68 true) ;;
     io_emit (Dev (Delay 1000)) ;;
     bus OwReset ;;
     bus (OwSelect addr) ;;
     bus (OwWrite 190 false) ;;
     temp_reads 9 ;;
     let raw := temp_raw (u8 (scratch 0%nat)) (u8 (scratch 1%nat)) in
     temp_show (temp_celsius raw))%io.

(** ** [setup] (lines 82-105) and the timed blocks of [loop]
    (lines 336-347) *)


(** What the sensors give during one pass. *)
Record readings : Type := mkReadings {
  millis : Z;
  ds_found : bool;
  ds_addr : list Z;
  ds_scratch : nat -> Z;
  pin_A2 : Z;
  pulse_width : Z;
  wire_buffer : list Z;
  pin_A1 : Z
}.


(** Lines 56, 58, 60. *)
Record clocks : Type := mkClocks {
  time_now : Z;
  rtc_time : Z;
  temper_time : Z
}.

(** [time_now - last >= period], in [unsigned long]. *)
Definition due (now last period : Z) : bool :=
  Int.u32 (now - last) >=? period.

(** Lines 336-347. *)
Definition loop_timed (r : readings) (c : clocks) (g : globals)
  : IO (clocks * globals) :=
  (let now := Int.u32 (millis r) in
   temper <- (if due now (temper_time c) 1000 then
                temp (ds_found r) (ds_addr r) (ds_scratch r) ;;
                lift (voltage (pin_A2 r)) ;;
                lift (rpm (pulse_width r)) ;;
                io_ret now
              else io_ret (temper_time c)) ;;
   if due now (rtc_time c) 15000 then
     rtc (wire_buffer r) ;;
     g' <- lift (fuel (pin_A1 r) g) ;;
     io_ret (mkClocks now now temper, g')
   else io_ret (mkClocks now (rtc_time c) temper, g))%io.

End Sketch.

(** ** What the display shows

    A character written to the display goes to the cell under the cursor
    and moves the cursor one cell to the right; [setCursor] places the
    cursor.  A cell is a column, a row and a character code; the newest
    cell comes first.  Columns past 19 are off the 20-column row.  The
    text of a [float] depends on [Print::printFloat] and is not modelled:
    a trace with a [PrintFloat] has no picture. *)

Definition codes (s : string) : list Z :=
  map (fun c => Z.of_N (N_of_ascii c)) (list_ascii_of_string s).

Definition op_codes (op : lcd_op) : option (list Z) :=
  match op with
  | SetCursor _ _ => Some []
  | PrintStr s => Some (codes s)
  | PrintInt n => Some (codes (decimal n))
  | WriteByte b => Some [b]
  | PrintFloat _ => None
  end.

Definition cell : Type := (Z * Z * Z)%type.

Fixpoint type_codes (cs : list Z) (col row : Z) (glass : list cell)
  : Z * list cell :=
  match cs with
  | [] => (col, glass)
  | c :: rest => type_codes rest (col + 1) row ((col, row, c) :: glass)
  end.

Fixpoint paint (ops : list lcd_op) (col row : Z) (glass : list cell)
  : option (list cell) :=
  match ops with
  | [] => Some glass
  | SetCursor c r :: rest => paint rest c r glass
  | op :: rest =>
      match op_codes op with
      | None => None
      | Some cs =>
          let (col', glass') := type_codes cs col row glass in
          paint rest col' row glass'
      end
  end.

Fixpoint lcd_ops (tr : list io) : list lcd_op :=
  match tr with
  | [] => []
  | Dev (Lcd op) :: rest => op :: lcd_ops rest
  | _ :: rest => lcd_ops rest
  end.

(** The cells written by a run, from a cursor at the top left. *)
Definition picture (tr : list io) : option (list cell) :=
  paint (lcd_ops tr) 0 0 [].

Fixpoint cell_at (glass : list cell) (col row : Z) : option Z :=
  match glass with
  | [] => None
  | (c, r, code) :: rest =>
      if (c =? col) && (r =? row) then Some code else cell_at rest col row
  end.

(** The codes shown in [n] cells of a row from column [col]; a cell that
    was not written is [None]. *)
Fixpoint row_cells (glass : list cell) (row col : Z) (n : nat)
  : list (option Z) :=
  match n with
  | O => []
  | S n' => cell_at glass col row :: row_cells glass row (col + 1) n'
  end.

(** Every cell written lies in the given row, between two columns. *)
Definition within (glass : list cell) (row first last : Z) : bool :=
  forallb (fun c : cell =>
             let '(col, r, _) := c in
             (r =? row) && (first <=? col) && (col <=? last)) glass.

Definition text_cells (s : string) : list (option Z) := map Some (codes s).

(** Two decimal digits. *)
Definition two_digits (n : Z) : string :=
  (decimal (n / 10) ++ decimal (n mod 10))%string.

(** The register format of the clock: tens in the high half. *)
Definition bcd (n : Z) : Z := 16 * (n / 10) + n mod 10.

(** The fuel bar: one cell for ten percent, a half block for five more. *)
Definition bar_cell (percent col : Z) : Z :=
  if col <? percent / 10 then 1
  else if (col =? percent / 10) && (5 <=? percent mod 10) then 0
  else 32.

Fixpoint bar_cells (percent col : Z) (n : nat) : list (option Z) :=
  match n with
  | O => []
  | S n' => Some (bar_cell percent col) :: bar_cells percent (col + 1) n'
  end.

(** A text with blanks before it, in four cells. *)
Definition right_aligned (s : string) : list (option Z) :=
  map Some (repeat 32 (4 - List.length (codes s)) ++ codes s).

(** A text with blanks after it, in six cells. *)
Definition left_aligned (cs : list Z) : list (option Z) :=
  map Some (cs ++ repeat 32 (6 - List.length cs)).

(** [n] runs of a handler. *)
Definition pulses (src : source) (n : nat) (g : globals) : globals :=
  Nat.iter n (handler src) g.

(** ** Checks evaluated over finite ranges *)

Definition code_eqb (a b : option Z) : bool :=
  match a, b with
  | Some x, Some y => x =? y
  | None, None => true
  | _, _ => false
  end.

Fixpoint cells_eqb (a b : list (option Z)) : bool :=
  match a, b with
  | [], [] => true
  | x :: a', y :: b' => code_eqb x y && cells_eqb a' b'
  | _, _ => false
  end.

(** What a picture must satisfy: the cells of one field and the bounds of
    all that was written. *)
Definition shows (p : option (list cell)) (row col : Z) (n : nat)
           (field : list (option Z)) (first last : Z) : bool :=
  match p with
  | Some glass =>
      cells_eqb (row_cells glass row col n) field
      && within glass row first last
  | None => false
  end.

Definition rtc_check (seconds h m : Z) : bool :=
  shows (picture (fst (rtc [seconds; bcd m; bcd h]))) 0 15 5
        (text_cells (two_digits (h + 1) ++ ":" ++ two_digits m)) 15 19.

Definition bcd_check (n : Z) : bool :=
  (decode_minutes (bcd n) =? n)
  && ((40 <=? n) || (decode_hours (bcd n) =? n + 1)).

Definition byte_check (b : Z) : bool :=
  (decode_minutes b <=? 165) && (1 <=? decode_hours b)
  && (decode_hours b <=? 46).

(** The reading [t] of the thermometer, in sixteenths of a degree, as the
    two bytes of the scratchpad. *)
Definition low_byte (t : Z) : Z := t mod 256.
Definition high_byte (t : Z) : Z := (t / 256) mod 256.

Definition temp_text (celsius : Z) : list Z :=
  codes (decimal celsius) ++ [223; 67].

Definition temp_show_check (celsius : Z) : bool :=
  shows (picture (fst (temp_show celsius))) 0 0 6
        (left_aligned (temp_text celsius)) 0 5.

(** The value that [voltage] prints. *)
Definition volts_shown (analog : Z) : F32.t :=
  abs (F32.div (F32.mul (F32.mul (F32.of_Z (Int.s16 analog))
                                 (F32.div (F32.of_Z 5) (F32.of_Z 1023)))
                        (F32.of_Z 30))
               (F32.of_Z 10)).

Definition volts_check (a : Z) : bool :=
  let v := volts_shown a in
  F32.leb F32.zero v && F32.leb v (F32.of_Z 15)
  && F32.leb v (volts_shown (a + 1)).

Definition percent_check (a : Z) : bool :=
  let p := fuel_percent (Int.s16 a) in
  (p =? a * 300 / 1023)
  && Bool.eqb (p >=? 80) (273 <=? a)
  && Bool.eqb (p <=? 19) (a <=? 68)
  && Bool.eqb (p <=? 100) (a <=? 344).

Definition fuel_picture (p : Z) : option (list cell) :=
  picture (map Dev (fst (fuel_display p))).

Definition bar_check (p : Z) : bool :=
  shows (fuel_picture p) 1 0 20
        (bar_cells p 0 10 ++ [Some 2] ++ repeat None 5
         ++ right_aligned (decimal p ++ "%")) 0 19.

Definition overflow_check (p : Z) : bool :=
  match fuel_picture p with
  | Some glass => Bool.eqb (within glass 1 0 19) (p <=? 100)
  | None => false
  end.

(** The number that [rpm] prints for a 16-bit pulse width. *)
Definition rpm_shown (pulse : Z) : Z :=
  Int.s16 (Z.quot 60000 (Int.s16 pulse)).

Definition distance_check (c : Z) : bool :=
  Bool.eqb (F32.geb (F32.mul (F32.of_Z c) wheelCircum) (F32.of_Z distance))
           (262 <=? c).

Definition is_attach (e : io) : bool :=
  match e with
  | AttachInterrupt _ _ => true
  | _ => false
  end.

Definition example_readings : readings :=
  mkReadings 20000 true [40; 1; 2; 3; 4; 5; 6; 7]
             (fun i => match i with O => 145 | S O => 1 | _ => 0 end)
             818 30 [0; bcd 59; bcd 23] 11.

Definition example_crc8 (l : list Z) : Z := 7.

Definition buzzer_event (e : event) : bool :=
  match e with
  | DigitalWrite _ _ | Delay _ => true
  | _ => false
  end.

(** A run that ends and only writes to the display. *)
Definition display_only {A : Type} (c : Eff A) : Prop :=
  (exists a, snd c = Some a)
  /\ Forall (fun e => exists op, e = Lcd op) (fst c).




(** The events of [temp] before the display is written. *)
Definition temp_search (found : bool) : list io :=
  Bus OwSearch
  :: (if found then [] else [Bus OwResetSearch; Dev (Delay 250)]).

Definition temp_convert (addr : list Z) : list io :=
  [Bus OwReset; Bus (OwSelect addr); Bus (OwWrite 68 true); Dev (Delay 1000);
   Bus OwReset; Bus (OwSelect addr); Bus (OwWrite 190 false);
   Bus OwRead; Bus OwRead; Bus OwRead; Bus OwRead; Bus OwRead; Bus OwRead;
   Bus OwRead; Bus OwRead; Bus OwRead].

(** * Properties *)

(** ** Checking a predicate on every 16-bit value *)

Lemma all_from_spec (P : Z -> bool) (n : nat) :
  forall z, all_from n z P = true ->
  forall x, z <= x < z + Z.of_nat n -> P x = true.
Proof.
  induction n as [|n IH]; intros z H x Hx.
  - simpl in Hx. lia.
  - cbn [all_from] in H. apply andb_true_iff in H. destruct H as [Hz Hn].
    destruct (Z.eq_dec x z) as [->|Hne]; [exact Hz|].
    apply (IH (z + 1) Hn). lia.
Qed.

Lemma all_u16_spec (P : Z -> bool) :
  all_u16 P = true -> forall z, Int.in_u16 z -> P z = true.
Proof.
  unfold all_u16, Int.in_u16. intros H z Hz.
  apply (all_from_spec P _ 0 H). rewrite Z2Nat.id; lia.
Qed.

(** ** The consumption computation *)

Lemma consumption_unfold (a b w : F32.t) :
  consumption a b w =
  (divisions a b w
   ++ (if F32.gtb (per_100km a b w) F32.zero
       then show_per_100km (per_100km a b w) else show_zero_per_100km)
   ++ (if F32.leb (meters w) F32.zero
       then show_per_minute (per_minute a b) else [])
   ++ show_counters a b w,
   Some tt).
Proof.
  unfold per_100km, per_minute, fuel_diff, liters, meters.
  cbv beta iota zeta delta [consumption bind fdiv emit ret lcd].
  destruct (F32.gtb _ F32.zero); destruct (F32.leb _ F32.zero); reflexivity.
Qed.

Lemma counter_check_all : all_u16 counter_check = true.
Proof. vm_cast_no_check (eq_refl true). Qed.

Lemma counter_facts (z : Z) :
  Int.in_u16 z ->
  F32.to_Z (F32.of_Z z) = z
  /\ (z <> 0 -> F32.is_pos (F32.of_Z z) = true
                /\ F32.is_pos (meters (F32.of_Z z)) = true)
  /\ F32.is_zero (fuel_diff (F32.of_Z z) (F32.of_Z z)) = true.
Proof.
  intros Hz. pose proof (all_u16_spec _ counter_check_all z Hz) as H.
  unfold counter_check in H. cbv zeta in H.
  apply andb_true_iff in H. destruct H as [H H3].
  apply andb_true_iff in H. destruct H as [H1 H2].
  apply Z.eqb_eq in H1. repeat split; auto.
  - apply orb_true_iff in H2. destruct H2 as [H2|H2].
    + apply Z.eqb_eq in H2. contradiction.
    + apply andb_true_iff in H2. tauto.
  - apply orb_true_iff in H2. destruct H2 as [H2|H2].
    + apply Z.eqb_eq in H2. contradiction.
    + apply andb_true_iff in H2. tauto.
Qed.

Lemma of_Z_exact (z : Z) : Int.in_u16 z -> F32.to_Z (F32.of_Z z) = z.
Proof. intros Hz. apply (counter_facts z Hz). Qed.

Lemma mul_zero_left (x : F32.t) :
  F32.is_zero (F32.mul F32.zero x) || F32.is_nan (F32.mul F32.zero x) = true.
Proof. destruct x as [s|s| |s m e]; reflexivity. Qed.

Lemma zero_not_positive (x y : F32.t) :
  F32.is_zero x = true -> F32.gtb (F32.mul x y) F32.zero = false.
Proof.
  destruct x as [s|s| |s m e]; try discriminate. intros _.
  destruct y as [t|t| |t m e]; reflexivity.
Qed.

Lemma zero_over_positive (x y : F32.t) :
  F32.is_zero x = true -> F32.is_pos y = true ->
  F32.is_zero (F32.div x y) = true.
Proof.
  destruct x as [s|s| |s m e]; try discriminate. intros _.
  destruct y as [t|t| |[|] m e]; try discriminate. reflexivity.
Qed.

Lemma positive_not_leb_zero (x : F32.t) :
  F32.is_pos x = true -> F32.leb x F32.zero = false.
Proof. destruct x as [s|s| |[|] m e]; try discriminate. reflexivity. Qed.

Lemma equal_flows_diff (z : Z) :
  Int.in_u16 z -> F32.is_zero (fuel_diff (F32.of_Z z) (F32.of_Z z)) = true.
Proof. intros Hz. apply (counter_facts z Hz). Qed.

Lemma meters_positive (z : Z) :
  Int.in_u16 z -> z <> 0 -> F32.is_pos (meters (F32.of_Z z)) = true.
Proof. intros Hz Hnz. apply (counter_facts z Hz). exact Hnz. Qed.


(** C1.  On the example of the specification (900 and 450 flow pulses, 261
    wheel pulses) [consumption] writes a value between 40 and 41 before
    [" L/100 km"], where [(fuelDelta / distanceMeters) * 100000] lies
    between 200 and 201: the value written is
    [(100 * fuelDelta / distanceMeters) * (100000 / distanceMeters)]. *)
Theorem consumption_example_value :
  let a := F32.of_Z 900 in
  let b := F32.of_Z 450 in
  let w := F32.of_Z 261 in
  consumption a b w =
    (divisions a b w ++ show_per_100km (per_100km a b w) ++ show_counters a b w,
     Some tt)
  /\ per_100km a b w = S754_finite false 10493524 (-18)
  /\ F32.ltb (F32.of_Z 40) (per_100km a b w) = true
  /\ F32.ltb (per_100km a b w) (F32.of_Z 41) = true
  /\ F32.ltb (F32.of_Z 200) (spec_per_100km a b w) = true
  /\ F32.ltb (spec_per_100km a b w) (F32.of_Z 201) = true.
Proof.
  cbv zeta. rewrite consumption_unfold.
  repeat split; vm_compute; reflexivity.
Qed.

(** C3, as stated, fails: with all three counts zero the computation
    divides by the zero distance. *)
Lemma stationary_snapshot_divides_by_zero :
  let tr := trace (consumption (F32.of_Z 0) (F32.of_Z 0) (F32.of_Z 0)) in
  divides_by_zero tr = true
  /\ In (FDiv (F32.of_Z 100000) F32.zero) tr
  /\ In (Lcd (PrintStr "0.00 L/100 km")) tr.
Proof. cbv zeta. repeat split; vm_compute; tauto. Qed.

(** C3, amended.  With a wheel count of zero, whatever the flow counts:
    lines 294 and 295 each divide by the zero distance (in floating point:
    the run goes on with an infinity or a NaN); a value or the text [0.00]
    is first written with the unit [L/100 km]; the line is then blanked and
    the value of [(60 / interval) * diff] is written with the unit [L/min],
    and nothing is written on that line afterwards. *)
Theorem stationary_snapshot_unit (a b : F32.t) :
  exists first,
    consumption a b (F32.of_Z 0) =
      ([FDiv a (F32.of_Z 450); FDiv b (F32.of_Z 450);
        FDiv (F32.of_Z 100000) F32.zero; FDiv (fuel_diff a b) F32.zero]
       ++ first
       ++ show_per_minute (per_minute a b)
       ++ show_counters a b (F32.of_Z 0),
       Some tt)
    /\ (first = show_per_100km (per_100km a b (F32.of_Z 0))
        \/ first = show_zero_per_100km)
    /\ divides_by_zero (trace (consumption a b (F32.of_Z 0))) = true.
Proof.
  rewrite consumption_unfold.
  change (meters (F32.of_Z 0)) with F32.zero.
  change (F32.leb F32.zero F32.zero) with true.
  destruct (F32.gtb (per_100km a b (F32.of_Z 0)) F32.zero);
    eexists; (split; [reflexivity|]); split; auto.
Qed.

(** C4.  With 450 pulses on one flow meter, none on the other and a wheel
    count of zero, [consumption] writes the value zero before [" L/min"],
    where [fuelDelta * (60 / windowSeconds)] is 12; for all flow counts the
    value written there is a zero or a NaN, since [60 / interval] is an
    integer division with quotient 0. *)
Theorem stationary_example_value :
  let a := F32.of_Z 450 in
  let b := F32.of_Z 0 in
  let w := F32.of_Z 0 in
  consumption a b w =
    (divisions a b w
     ++ show_per_100km (S754_infinity false)
     ++ show_per_minute F32.zero
     ++ show_counters a b w,
     Some tt)
  /\ spec_per_minute a b = F32.of_Z 12
  /\ Z.quot 60 interval = 0
  /\ forall x y : F32.t,
       F32.is_zero (per_minute x y) || F32.is_nan (per_minute x y) = true.
Proof.
  cbv zeta. rewrite consumption_unfold. repeat split.
  intros x y. apply mul_zero_left.
Qed.

(** C5.  With the same count [f] on both flow meters and any wheel count
    [w], the text written on the consumption line is [0.00 L/100 km]; when
    [w] is zero it is then replaced by a floating-point zero followed by
    [" L/min"].  No other value is written on that line. *)
Theorem equal_flows_report_zero (f w : Z) :
  Int.in_u16 f -> Int.in_u16 w ->
  exists z,
    F32.is_zero z = true
    /\ consumption (F32.of_Z f) (F32.of_Z f) (F32.of_Z w) =
         (divisions (F32.of_Z f) (F32.of_Z f) (F32.of_Z w)
          ++ show_zero_per_100km
          ++ (if w =? 0 then show_per_minute z else [])
          ++ show_counters (F32.of_Z f) (F32.of_Z f) (F32.of_Z w),
          Some tt).
Proof.
  intros Hf Hw. pose proof (equal_flows_diff f Hf) as Hd.
  rewrite consumption_unfold.
  destruct (Z.eqb_spec w 0) as [->|Hnz].
  - change (meters (F32.of_Z 0)) with F32.zero.
    change (F32.leb F32.zero F32.zero) with true.
    exists (per_minute (F32.of_Z f) (F32.of_Z f)). split.
    + unfold per_minute.
      destruct (fuel_diff (F32.of_Z f) (F32.of_Z f)) as [s|s| |s m e];
        try discriminate. reflexivity.
    + unfold per_100km.
      destruct (fuel_diff (F32.of_Z f) (F32.of_Z f)) as [s|s| |s m e];
        try discriminate. reflexivity.
  - pose proof (meters_positive w Hw Hnz) as Hm.
    exists F32.zero. split; [reflexivity|].
    rewrite (positive_not_leb_zero _ Hm).
    unfold per_100km.
    rewrite (zero_not_positive _ _ (zero_over_positive _ _ Hd Hm)).
    reflexivity.
Qed.

Lemma equal_flows_report_zero_witness :
  exists z,
    F32.is_zero z = true
    /\ consumption (F32.of_Z 7) (F32.of_Z 7) (F32.of_Z 300) =
         (divisions (F32.of_Z 7) (F32.of_Z 7) (F32.of_Z 300)
          ++ show_zero_per_100km
          ++ (if 300 =? 0 then show_per_minute z else [])
          ++ show_counters (F32.of_Z 7) (F32.of_Z 7) (F32.of_Z 300),
          Some tt).
Proof.
  apply (equal_flows_report_zero 7 300); unfold Int.in_u16; lia.
Defined.

(** ** Interrupts and the critical section *)

Lemma dispatch_masked (m : machine) : enabled m = false -> dispatch m = m.
Proof. unfold dispatch. intros ->. reflexivity. Qed.


Lemma edge_masked (src : source) (m : machine) :
  enabled m = false ->
  mem (edge src m) = mem m /\ enabled (edge src m) = false.
Proof.
  intros H. unfold edge. rewrite (dispatch_masked m H).
  assert (enabled (raise_flag src m) = false) as H'
      by (destruct src; exact H).
  rewrite (dispatch_masked _ H').
  destruct src; split; auto.
Qed.

Lemma edge_settled (src : source) (m : machine) :
  settled m ->
  mem (edge src m) = handler src (mem m) /\ settled (edge src m).
Proof.
  destruct m as [g e f1 f2 fw]. unfold settled. simpl.
  intros (-> & -> & -> & ->). destruct src; repeat split.
Qed.

Lemma exec_masked (s : stmt) (m : machine) :
  enabled m = false -> s <> Interrupts ->
  mem (exec s m) = exec_mem s (mem m) /\ enabled (exec s m) = false.
Proof.
  intros H Hs. unfold exec. rewrite (dispatch_masked m H).
  destruct s; simpl; auto. contradiction.
Qed.

Lemma run_app (a b : list action) (m : machine) :
  run (a ++ b) m = run b (run a m).
Proof. apply fold_left_app. Qed.

(** With interrupts disabled, edges change no variable: the variables
    evolve by the statements alone. *)
Lemma run_masked (acts : list action) :
  forall m, enabled m = false -> ~ In Interrupts (stmts_of acts) ->
  mem (run acts m) = fold_left (fun g s => exec_mem s g) (stmts_of acts) (mem m)
  /\ enabled (run acts m) = false.
Proof.
  induction acts as [|[src|s] acts IH]; intros m H Hn.
  - split; [reflexivity | exact H].
  - destruct (edge_masked src m H) as [Hm He].
    change (run (Edge src :: acts) m) with (run acts (edge src m)).
    destruct (IH (edge src m) He Hn) as [IH1 IH2].
    split; [|exact IH2]. rewrite IH1, Hm. reflexivity.
  - assert (s <> Interrupts) as Hs by (intros ->; apply Hn; left; reflexivity).
    destruct (exec_masked s m H Hs) as [Hm He].
    change (run (Exec s :: acts) m) with (run acts (exec s m)).
    assert (~ In Interrupts (stmts_of acts)) as Hn'
        by (intros Hin; apply Hn; right; exact Hin).
    destruct (IH (exec s m) He Hn') as [IH1 IH2].
    split; [|exact IH2]. rewrite IH1, Hm. reflexivity.
Qed.

Lemma stmts_of_app (a b : list action) :
  stmts_of (a ++ b) = stmts_of a ++ stmts_of b.
Proof.
  induction a as [|[src|s] a IH]; simpl; [reflexivity | exact IH |].
  rewrite IH. reflexivity.
Qed.




Lemma masked_prefix (before after : list action) :
  stmts_of (before ++ after) = inside_section ->
  ~ In Interrupts (stmts_of before).
Proof.
  rewrite stmts_of_app. intros H Hin.
  assert (In Interrupts inside_section) as Hc
      by (rewrite <- H; apply in_or_app; left; exact Hin).
  simpl in Hc. intuition discriminate.
Qed.

Lemma exec_NoInterrupts (m : machine) :
  mem (exec NoInterrupts m) = mem (dispatch m)
  /\ enabled (exec NoInterrupts m) = false.
Proof. split; reflexivity. Qed.

(** C8.  Lines 352-359, with any edges arriving between the statements:
    from [noInterrupts()] to [interrupts()] the interrupts stay disabled
    (so no handler runs), and right after [interrupts()] the three counters
    are zero and the three copies are the conversions to [float] of the
    counters as they were when [noInterrupts()] took effect, with the same
    integer values. *)
Theorem critical_section_atomic (m : machine) (inside : list action) :
  well_formed (mem (dispatch m)) ->
  stmts_of inside = inside_section ->
  let entry := mem (dispatch m) in
  let m' := run (Exec NoInterrupts :: inside ++ [Exec Interrupts]) m in
  mem m' = snapshot_reset entry
  /\ (countFlow1 (mem m') = 0 /\ countFlow2 (mem m') = 0
      /\ countWheel (mem m') = 0)
  /\ (copyFlow1 (mem m') = F32.of_Z (countFlow1 entry)
      /\ copyFlow2 (mem m') = F32.of_Z (countFlow2 entry)
      /\ copyWheel (mem m') = F32.of_Z (countWheel entry))
  /\ (F32.to_Z (copyFlow1 (mem m')) = countFlow1 entry
      /\ F32.to_Z (copyFlow2 (mem m')) = countFlow2 entry
      /\ F32.to_Z (copyWheel (mem m')) = countWheel entry)
  /\ enabled m' = true
  /\ (forall before after, inside = before ++ after ->
        let mid := run (Exec NoInterrupts :: before) m in
        enabled mid = false
        /\ (forall src, counter src (mem mid) = counter src entry
                        \/ counter src (mem mid) = 0)).
Proof.
  intros (W1 & W2 & WW) Hin entry m'.
  destruct (exec_NoInterrupts m) as [Hm0 He0].
  assert (~ In Interrupts (stmts_of inside)) as Hno
      by (rewrite Hin; simpl; intuition discriminate).
  assert (mem m' = snapshot_reset entry /\ enabled m' = true) as [Hmem Hen].
  { unfold m'. change (run (Exec NoInterrupts :: inside ++ [Exec Interrupts]) m)
      with (run (inside ++ [Exec Interrupts]) (exec NoInterrupts m)).
    rewrite run_app.
    destruct (run_masked inside (exec NoInterrupts m) He0 Hno) as [H1 H2].
    set (mi := run inside (exec NoInterrupts m)) in *.
    change (run [Exec Interrupts] mi) with (exec Interrupts mi).
    unfold exec. rewrite (dispatch_masked mi H2). simpl.
    rewrite H1, Hin, Hm0. split; reflexivity. }
  split; [exact Hmem|]. rewrite Hmem.
  split; [repeat split|]. split; [repeat split|].
  split; [|split; [exact Hen|]].
  - simpl. repeat split; apply of_Z_exact; assumption.
  - intros before after Heq mid. unfold mid.
    change (run (Exec NoInterrupts :: before) m)
      with (run before (exec NoInterrupts m)).
    assert (~ In Interrupts (stmts_of before)) as Hb
        by (apply (masked_prefix before after); rewrite <- Heq; exact Hin).
    destruct (run_masked before (exec NoInterrupts m) He0 Hb) as [H1 H2].
    split; [exact H2|]. intros src. rewrite H1, Hm0. fold entry.
    assert (exists rest, stmts_of before ++ rest = inside_section) as [rest Hr]
        by (exists (stmts_of after);
            rewrite <- stmts_of_app, <- Heq; exact Hin).
    revert Hr. generalize (stmts_of before). intros l Hr.
    unfold inside_section in Hr.
    repeat (destruct l as [|s l];
            [destruct src; simpl; auto
            | simpl in Hr; injection Hr as -> Hr]).
    destruct l; [destruct src; simpl; auto | discriminate Hr].
Qed.

Lemma critical_section_atomic_witness :
  well_formed (mem (dispatch example_machine))
  /\ stmts_of example_inside = inside_section
  /\ mem (run (Exec NoInterrupts :: example_inside ++ [Exec Interrupts])
              example_machine)
     = snapshot_reset (mem (dispatch example_machine)).
Proof.
  assert (well_formed (mem (dispatch example_machine))) as W
      by (unfold well_formed, Int.in_u16; simpl; lia).
  assert (stmts_of example_inside = inside_section) as S by reflexivity.
  split; [exact W|]. split; [exact S|].
  apply (critical_section_atomic example_machine example_inside W S).
Defined.

(** The flags raised by the edges that arrive inside the critical section
    are served right after it, one handler run for each flagged line: here
    two edges of the first flow meter and one of the wheel arrive inside,
    and each of the two counters is 1 afterwards. *)
Example deferred_edges_example :
  let m' := run (Exec NoInterrupts :: example_inside ++ [Exec Interrupts])
                example_machine in
  (flagFlow1 m', flagFlow2 m', flagWheel m') = (true, false, true)
  /\ countFlow1 (mem (dispatch m')) = 1
  /\ countFlow2 (mem (dispatch m')) = 0
  /\ countWheel (mem (dispatch m')) = 1.
Proof. vm_compute. repeat split. Qed.

(** ** Pulses and snapshots *)

Lemma snapshot_settled (m : machine) :
  settled m ->
  mem (run (map Exec critical_section) m) = snapshot_reset (mem m)
  /\ settled (run (map Exec critical_section) m).
Proof.
  destruct m as [g e f1 f2 fw]. unfold settled. simpl.
  intros (-> & -> & -> & ->). repeat split.
Qed.

(** A list of handler runs and snapshots is a run of the machine. *)
Lemma ticks_run_machine (ticks : list tick) :
  forall m, settled m ->
  mem (run (flat_map actions_of ticks) m) = fst (ticks_run ticks (mem m))
  /\ settled (run (flat_map actions_of ticks) m).
Proof.
  induction ticks as [|[x|] ticks IH]; intros m S.
  - split; [reflexivity | exact S].
  - destruct (edge_settled x m S) as [Hm Hs].
    cbn [flat_map actions_of app ticks_run].
    change (run (Edge x :: flat_map actions_of ticks) m)
      with (run (flat_map actions_of ticks) (edge x m)).
    destruct (IH (edge x m) Hs) as [IH1 IH2].
    split; [|exact IH2]. rewrite IH1, Hm. reflexivity.
  - destruct (snapshot_settled m S) as [Hm Hs].
    cbn [flat_map actions_of ticks_run]. rewrite run_app.
    destruct (IH (run (map Exec critical_section) m) Hs) as [IH1 IH2].
    split; [|exact IH2]. rewrite IH1, Hm.
    destruct (ticks_run ticks (snapshot_reset (mem m))). reflexivity.
Qed.

Lemma handler_counter (src x : source) (g : globals) :
  counter src (handler x g) =
  if source_eqb src x then Int.u16 (counter src g + 1) else counter src g.
Proof. destruct src, x; reflexivity. Qed.





Example idle_then_drive_reaches_distance :
  distance_reached (fst (ticks_run idle_then_drive power_on)) = true.
Proof. vm_compute. reflexivity. Qed.







(** ** The call of [consumption] from [loop] *)













(** ** The low-fuel alarm *)

Lemma alarm_policy_cases (p b : Z) :
  alarm_policy p b =
  if p >=? 80 then ([], Some 0)
  else if p <=? 19 then (if b =? 0 then alarm_pattern else [], Some 1)
  else ([], Some b).
Proof.
  unfold alarm_policy.
  change (Z.quot (100 * fuelAlarm) fuelMax) with 19.
  destruct (p >=? 80); [reflexivity|].
  destruct (p <=? 19); [|reflexivity].
  unfold buzz. destruct (b =? 0); reflexivity.
Qed.

Lemma policy_refines_spec (samples : list Z) :
  forall b, fired (policy_run samples b) = spec_run samples (state_of b).
Proof.
  induction samples as [|p rest IH]; intros b; [reflexivity|].
  cbn [policy_run fired map spec_run].
  fold (fired (policy_run rest (latch_after (alarm_policy p b) b))).
  rewrite IH. rewrite alarm_policy_cases.
  unfold state_of, spec_step, spec_low, latch_after, result, trace.
  destruct (p >=? 80); destruct (p <=? 19); cbn [fst snd];
    destruct (b =? 0); reflexivity.
Qed.

(** C6.  From the armed state the samples 90, 50, 3, 50, 90 (given by the
    readings 307, 171, 11, 171, 307 of the fuel gauge) sound the alarm once,
    at the sample 3, and re-arm once, at the last sample.  For every sample
    and state, an evaluation sounds one alarm when the sample is at most 19
    and [buzzDIS] is zero, and is silent otherwise; for every run it sounds
    where the two-state policy of the specification fires; and an alarm on
    a sample that follows another one requires the earlier sample to be
    above 19. *)
Theorem alarm_once_per_crossing :
  map fuel_percent [307; 171; 11; 171; 307] = [90; 50; 3; 50; 90]
  /\ policy_run [90; 50; 3; 50; 90] 0
     = [([], 0); ([], 0); (alarm_pattern, 1); ([], 1); ([], 0)]
  /\ fired (policy_run [90; 50; 3; 50; 90] 0)
     = [false; false; true; false; false]
  /\ rearmed 0 (policy_run [90; 50; 3; 50; 90] 0)
     = [false; false; false; false; true]
  /\ (forall p b,
        trace (alarm_policy p b)
        = if (p <? 80) && (p <=? 19) && (b =? 0) then alarm_pattern else [])
  /\ (forall samples b,
        fired (policy_run samples b) = spec_run samples (state_of b))
  /\ (forall prev p b,
        trace (alarm_policy p (latch_after (alarm_policy prev b) b))
        = if (p <=? 19) && ((prev >=? 80) || ((19 <? prev) && (b =? 0)))
          then alarm_pattern else []).
Proof.
  split; [vm_compute; reflexivity|].
  split; [reflexivity|]. split; [reflexivity|]. split; [reflexivity|].
  split; [|split].
  - intros p b. rewrite alarm_policy_cases. unfold trace.
    destruct (Z.geb_spec p 80); destruct (Z.ltb_spec p 80); try lia;
      destruct (p <=? 19); destruct (b =? 0); reflexivity.
  - intros samples b. apply policy_refines_spec.
  - intros prev p b. rewrite !alarm_policy_cases.
    unfold latch_after, result, trace.
    destruct (Z.geb_spec prev 80); destruct (Z.ltb_spec 19 prev);
      destruct (Z.leb_spec prev 19); try lia;
      destruct (Z.geb_spec p 80); destruct (Z.leb_spec p 19); try lia;
      cbn [fst snd]; destruct (b =? 0); reflexivity.
Qed.

Lemma buzzDIS_exec_mem (s : stmt) (g : globals) :
  buzzDIS (exec_mem s g) = buzzDIS g.
Proof. destruct s; reflexivity. Qed.

Lemma buzzDIS_handler (x : source) (g : globals) :
  buzzDIS (handler x g) = buzzDIS g.
Proof. destruct x; reflexivity. Qed.

(** C7.  An evaluation that starts with [buzzDIS] non-zero and leaves it
    zero has a fuel percentage of at least 80; [buzz] always leaves it 1;
    the statements of [loop] and the interrupt handlers do not write it. *)
Theorem rearm_only_at_80 (p b : Z) :
  b <> 0 ->
  (result (alarm_policy p b) = Some 0 -> 80 <= p)
  /\ result (buzz b) = Some 1
  /\ (forall s g, buzzDIS (exec_mem s g) = buzzDIS g)
  /\ (forall x g, buzzDIS (handler x g) = buzzDIS g).
Proof.
  intros Hb. split; [|split; [|split]].
  - rewrite alarm_policy_cases. unfold result.
    destruct (Z.geb_spec p 80); [lia|].
    destruct (p <=? 19); cbn [snd]; intros R; [discriminate R|].
    injection R as E. contradiction.
  - unfold buzz. destruct (b =? 0); reflexivity.
  - apply buzzDIS_exec_mem.
  - apply buzzDIS_handler.
Qed.

Lemma rearm_only_at_80_witness :
  1 <> 0
  /\ result (alarm_policy 90 1) = Some 0
  /\ 80 <= 90.
Proof.
  assert (1 <> 0) as H by lia.
  assert (result (alarm_policy 90 1) = Some 0) as R by reflexivity.
  split; [exact H|]. split; [exact R|].
  exact (proj1 (rearm_only_at_80 90 1 H) R).
Defined.

(** ** Engine speed *)

(** C9.  With a pulse width of zero, [rpm] divides 60000 by zero before it
    writes anything: nothing in [rpm] tests [duration]; the division is
    undefined exactly when the 16-bit value of the reading is zero. *)
Theorem rpm_divides_by_zero_without_pulse :
  rpm 0 = ([IDiv 60000 0], None)
  /\ forall pulse, result (rpm pulse) = None <-> Int.s16 pulse = 0.
Proof.
  split; [reflexivity|].
  intros pulse. unfold rpm, idiv, result.
  cbv beta iota zeta delta [bind emit ret lcd].
  destruct (Z.eqb_spec (Int.s16 pulse) 0) as [E|E]; cbn [snd fst].
  - split; auto.
  - split; [discriminate | contradiction].
Qed.

(** * Properties of the rest of the sketch *)

(** ** Pictures and checks *)

Lemma cells_eqb_eq (a : list (option Z)) :
  forall b, cells_eqb a b = true -> a = b.
Proof.
  induction a as [|x a IH]; intros [|y b] H; try discriminate H.
  - reflexivity.
  - cbn [cells_eqb] in H. apply andb_true_iff in H. destruct H as [Hx Hr].
    rewrite (IH b Hr). f_equal.
    destruct x as [x|], y as [y|]; try discriminate Hx; [|reflexivity].
    apply Z.eqb_eq in Hx. rewrite Hx. reflexivity.
Qed.

Lemma shows_spec (p : option (list cell)) (row col : Z) (n : nat)
      (field : list (option Z)) (first last : Z) :
  shows p row col n field first last = true ->
  exists glass,
    p = Some glass
    /\ row_cells glass row col n = field
    /\ within glass row first last = true.
Proof.
  unfold shows. destruct p as [glass|]; [|discriminate].
  intros H. apply andb_true_iff in H. destruct H as [H1 H2].
  exists glass. repeat split; [apply cells_eqb_eq; exact H1 | exact H2].
Qed.

(** ** The clock *)

Lemma rtc_check_all (seconds : Z) :
  all_from 24 0 (fun h => all_from 60 0 (fun m => rtc_check seconds h m))
  = true.
Proof. vm_cast_no_check (eq_refl true). Qed.

(** X1.  When the clock answers with its three registers holding a time
    of day [h]:[m] in binary-coded decimal, [rtc] leaves the hour plus one
    and the minute, two digits each with a colon between, in columns 15 to
    19 of the top row, and writes nowhere else; the seconds are read and
    not used.  At 23 hours the display reads 24. *)
Theorem rtc_shows_time (seconds h m : Z) :
  0 <= h < 24 -> 0 <= m < 60 ->
  exists glass,
    picture (fst (rtc [seconds; bcd m; bcd h])) = Some glass
    /\ row_cells glass 0 15 5
       = text_cells (two_digits (h + 1) ++ ":" ++ two_digits m)
    /\ within glass 0 15 19 = true.
Proof.
  intros Hh Hm.
  pose proof (all_from_spec _ _ 0 (rtc_check_all seconds) h) as H1.
  cbv beta in H1. specialize (H1 ltac:(simpl; lia)).
  pose proof (all_from_spec _ _ 0 H1 m ltac:(simpl; lia)) as H2.
  apply shows_spec. exact H2.
Qed.

Lemma rtc_shows_time_witness :
  exists glass,
    picture (fst (rtc [7; bcd 5; bcd 23])) = Some glass
    /\ row_cells glass 0 15 5
       = text_cells (two_digits (23 + 1) ++ ":" ++ two_digits 5)
    /\ within glass 0 15 19 = true.
Proof. apply (rtc_shows_time 7 23 5); lia. Defined.

Lemma bcd_check_all : all_from 100 0 bcd_check = true.
Proof. vm_cast_no_check (eq_refl true). Qed.

Lemma byte_check_all : all_from 256 0 byte_check = true.
Proof. vm_cast_no_check (eq_refl true). Qed.

(** X2.  Decoding inverts the binary-coded decimal format: a minute
    register holding [n] below 100 decodes to [n], and an hour register
    holding [n] below 40 decodes to [n + 1] (line 170 adds one).  Whatever
    a register holds, the decoded minute is at most 165 and the decoded
    hour lies between 1 and 46. *)
Theorem bcd_round_trip (n : Z) :
  0 <= n < 100 ->
  decode_minutes (bcd n) = n
  /\ (n < 40 -> decode_hours (bcd n) = n + 1)
  /\ (forall b, 0 <= b < 256 ->
        decode_minutes b <= 165 /\ 1 <= decode_hours b <= 46).
Proof.
  intros Hn.
  pose proof (all_from_spec _ _ 0 bcd_check_all n ltac:(simpl; lia)) as H.
  unfold bcd_check in H. apply andb_true_iff in H. destruct H as [H1 H2].
  apply Z.eqb_eq in H1. split; [exact H1|]. split.
  - intros Hlt. apply orb_true_iff in H2. destruct H2 as [H2|H2].
    + apply Z.leb_le in H2. lia.
    + apply Z.eqb_eq in H2. exact H2.
  - intros b Hb.
    pose proof (all_from_spec _ _ 0 byte_check_all b ltac:(simpl; lia)) as B.
    unfold byte_check in B. apply andb_true_iff in B. destruct B as [B B3].
    apply andb_true_iff in B. destruct B as [B1 B2].
    apply Z.leb_le in B1, B2, B3. lia.
Qed.

Lemma bcd_round_trip_witness :
  decode_minutes (bcd 59) = 59
  /\ (59 < 40 -> decode_hours (bcd 59) = 59 + 1)
  /\ (forall b, 0 <= b < 256 ->
        decode_minutes b <= 165 /\ 1 <= decode_hours b <= 46).
Proof. apply (bcd_round_trip 59); lia. Defined.

(** ** The thermometer *)

Lemma land_clear_bit0 (a : Z) : Z.land a (-2) = 2 * (a / 2).
Proof.
  change (-2) with (Z.lnot (Z.ones 1)).
  rewrite <- Z.ldiff_land, Z.ldiff_ones_r by lia.
  rewrite Z.shiftr_div_pow2, Z.shiftl_mul_pow2 by lia.
  change (2 ^ 1) with 2. lia.
Qed.

Lemma s16_small (z : Z) : -32768 <= z < 32768 -> Int.s16 z = z.
Proof.
  intros H. unfold Int.s16. cbv zeta.
  destruct (Z_lt_le_dec z 0) as [Hn|Hp].
  - replace (z mod 65536) with (z + 65536).
    + destruct (Z.ltb_spec (z + 65536) 32768); lia.
    + apply (Z.mod_unique_pos _ _ (-1)); lia.
  - rewrite Z.mod_small by lia.
    destruct (Z.ltb_spec z 32768); lia.
Qed.

Lemma s16_range (z : Z) : -32768 <= Int.s16 z < 32768.
Proof.
  unfold Int.s16. cbv zeta.
  pose proof (Z.mod_pos_bound z 65536 ltac:(lia)).
  destruct (Z.ltb_spec (z mod 65536) 32768); lia.
Qed.

Lemma temp_celsius_bounds (raw : Z) :
  -32768 <= raw < 32768 ->
  raw - 15 <= 16 * temp_celsius raw <= raw + 15
  /\ (0 <= raw -> 0 <= 16 * temp_celsius raw <= raw)
  /\ (raw < 0 -> raw - 1 <= 16 * temp_celsius raw <= 0).
Proof.
  intros H. unfold temp_celsius. rewrite land_clear_bit0.
  assert (-32768 <= 2 * (raw / 2) < 32768) as H2
      by (pose proof (Z.div_mod raw 2 ltac:(lia));
          pose proof (Z.mod_pos_bound raw 2 ltac:(lia)); lia).
  rewrite (s16_small _ H2).
  pose proof (Z.quot_rem' (2 * (raw / 2)) 16) as E.
  pose proof (Z.div_mod raw 2 ltac:(lia)) as D.
  pose proof (Z.mod_pos_bound raw 2 ltac:(lia)) as M.
  destruct (Z_lt_le_dec (2 * (raw / 2)) 0) as [Hn|Hp].
  - pose proof (Z.rem_nonpos (2 * (raw / 2)) 16 ltac:(lia) ltac:(lia)) as R.
    pose proof (Z.rem_bound_abs (2 * (raw / 2)) 16 ltac:(lia)) as A.
    rewrite s16_small by lia. lia.
  - pose proof (Z.rem_bound_pos (2 * (raw / 2)) 16 ltac:(lia) ltac:(lia)) as R.
    rewrite s16_small by lia. lia.
Qed.

Lemma lor_bytes (h l : Z) :
  0 <= l < 256 -> Z.lor (Z.shiftl h 8) l = h * 256 + l.
Proof.
  intros Hl. pose proof (Z.add_lor_land (Z.shiftl h 8) l) as E.
  assert (Z.land (Z.shiftl h 8) l = 0) as L.
  { apply Z.bits_inj'. intros n Hn. rewrite Z.land_spec, Z.bits_0.
    destruct (Z_lt_le_dec n 8) as [Hlt|Hge].
    - rewrite Z.shiftl_spec_low by lia. reflexivity.
    - destruct (Z.eq_dec l 0) as [->|Hnz].
      + rewrite Z.bits_0. apply andb_false_r.
      + rewrite (Z.bits_above_log2 l n); [apply andb_false_r | lia |].
        apply Z.log2_lt_pow2; [lia|].
        apply Z.lt_le_trans with (2 ^ 8); [simpl; lia|].
        apply Z.pow_le_mono_r; lia. }
  rewrite L, Z.shiftl_mul_pow2 in E by lia. change (2 ^ 8) with 256 in E.
  rewrite Z.shiftl_mul_pow2 in * by lia. change (2 ^ 8) with 256 in *. lia.
Qed.

Lemma temp_raw_bytes (t : Z) :
  -32768 <= t < 32768 -> temp_raw (low_byte t) (high_byte t) = t.
Proof.
  intros H. unfold temp_raw, low_byte, high_byte.
  rewrite lor_bytes by (apply Z.mod_pos_bound; lia).
  rewrite <- (s16_small t H) at 3. unfold Int.s16. cbv zeta.
  replace (((t / 256) mod 256 * 256 + t mod 256) mod 65536) with (t mod 65536);
    [reflexivity|].
  rewrite (Z.mod_small ((t / 256) mod 256 * 256 + t mod 256))
    by (pose proof (Z.mod_pos_bound (t / 256) 256 ltac:(lia));
        pose proof (Z.mod_pos_bound t 256 ltac:(lia)); lia).
  change 65536 with (256 * 256). rewrite Z.rem_mul_r by lia. lia.
Qed.

(** X3.  The two scratchpad bytes of a reading [t] (in sixteenths of a
    degree, 16 bits) are put together into [t] again, and the temperature
    shown is [t] with its lowest bit cleared, divided by 16 toward zero: it
    is within fifteen sixteenths of a degree of the reading, lies between
    zero and the reading when the reading is not negative, and is not
    positive when the reading is negative. *)
Theorem temp_celsius_accuracy (t : Z) :
  -32768 <= t < 32768 ->
  let raw := temp_raw (low_byte t) (high_byte t) in
  raw = t
  /\ t - 15 <= 16 * temp_celsius raw <= t + 15
  /\ (0 <= t -> 0 <= 16 * temp_celsius raw <= t)
  /\ (t < 0 -> t - 1 <= 16 * temp_celsius raw <= 0).
Proof.
  intros H. cbv zeta. rewrite (temp_raw_bytes t H).
  split; [reflexivity|]. apply temp_celsius_bounds. exact H.
Qed.

Lemma temp_celsius_accuracy_witness :
  temp_raw (low_byte (-15)) (high_byte (-15)) = -15
  /\ temp_celsius (temp_raw (low_byte (-15)) (high_byte (-15))) = -1.
Proof.
  destruct (temp_celsius_accuracy (-15) ltac:(lia)) as (E & _ & _ & _).
  split; [exact E | reflexivity].
Defined.

Lemma lcd_ops_app (a b : list io) : lcd_ops (a ++ b) = lcd_ops a ++ lcd_ops b.
Proof.
  induction a as [|e a IH]; [reflexivity|].
  destruct e as [[op| | | | ]| | | | | | ]; cbn [app lcd_ops];
    rewrite IH; reflexivity.
Qed.

Lemma temp_show_result (celsius : Z) : snd (temp_show celsius) = Some tt.
Proof. unfold temp_show. destruct (celsius <? 100); reflexivity. Qed.

Lemma temp_unfold (crc8 : list Z -> Z) (found : bool) (addr : list Z)
      (scratch : nat -> Z) :
  temp crc8 found addr scratch =
  if crc8 (firstn 7 addr) =? nth 7 addr 0 then
    (temp_search found ++ temp_convert addr
     ++ fst (temp_show (temp_celsius
                          (temp_raw (u8 (scratch 0%nat)) (u8 (scratch 1%nat))))),
     Some tt)
  else (temp_search found, Some tt).
Proof.
  unfold temp.
  destruct (crc8 (firstn 7 addr) =? nth 7 addr 0); cbn [negb].
  - set (c := temp_celsius _).
    pose proof (temp_show_result c) as R.
    destruct (temp_show c) as [tr r] eqn:E. cbn [snd] in R. subst r.
    destruct found; reflexivity.
  - destruct found; reflexivity.
Qed.

(** X4.  When the checksum of the address does not match its last byte,
    [temp] returns after the search (and, when no device was found, the
    search reset and a 250 ms delay): it sends no command to the
    thermometer and writes nothing to the display. *)
Theorem temp_bad_crc_is_silent (crc8 : list Z -> Z) (found : bool)
        (addr : list Z) (scratch : nat -> Z) :
  crc8 (firstn 7 addr) <> nth 7 addr 0 ->
  temp crc8 found addr scratch = (temp_search found, Some tt)
  /\ lcd_ops (fst (temp crc8 found addr scratch)) = []
  /\ picture (fst (temp crc8 found addr scratch)) = Some [].
Proof.
  intros H. rewrite temp_unfold.
  destruct (Z.eqb_spec (crc8 (firstn 7 addr)) (nth 7 addr 0)) as [E|_];
    [contradiction|].
  destruct found; repeat split.
Qed.

Lemma temp_bad_crc_is_silent_witness :
  temp example_crc8 false [40; 1; 2; 3; 4; 5; 6; 8] (fun _ => 0)
  = (temp_search false, Some tt).
Proof.
  apply (temp_bad_crc_is_silent example_crc8 false [40; 1; 2; 3; 4; 5; 6; 8]
           (fun _ => 0)).
  vm_compute. discriminate.
Defined.

Lemma temp_show_check_all :
  all_from (Z.to_nat 2147) (-99) temp_show_check = true.
Proof. vm_cast_no_check (eq_refl true). Qed.

(** X5.  When the checksum matches and the temperature is -99 degrees or
    more, [temp] asks for a conversion, waits 1000 ms, reads the nine bytes
    of the scratchpad and leaves in columns 0 to 5 of the top row the
    decimal temperature, the degree sign and [C], with blanks after them;
    it writes nowhere else. *)
Theorem temp_shows_celsius (crc8 : list Z -> Z) (found : bool)
        (addr : list Z) (scratch : nat -> Z) :
  let celsius :=
    temp_celsius (temp_raw (u8 (scratch 0%nat)) (u8 (scratch 1%nat))) in
  crc8 (firstn 7 addr) = nth 7 addr 0 ->
  -99 <= celsius ->
  exists shown glass,
    temp crc8 found addr scratch
    = (temp_search found ++ temp_convert addr ++ shown, Some tt)
    /\ picture (fst (temp crc8 found addr scratch)) = Some glass
    /\ row_cells glass 0 0 6 = left_aligned (temp_text celsius)
    /\ within glass 0 0 5 = true.
Proof.
  intros celsius Hcrc Hc. rewrite temp_unfold.
  destruct (Z.eqb_spec (crc8 (firstn 7 addr)) (nth 7 addr 0)) as [_|N];
    [|contradiction].
  fold celsius.
  assert (celsius <= 2047) as Hmax.
  { pose proof (temp_celsius_bounds
                  (temp_raw (u8 (scratch 0%nat)) (u8 (scratch 1%nat)))
                  (s16_range _)) as (_ & P & Q).
    pose proof (s16_range (Z.lor (Z.shiftl (u8 (scratch 1%nat)) 8)
                                 (u8 (scratch 0%nat)))) as R.
    unfold celsius. fold (temp_raw (u8 (scratch 0%nat)) (u8 (scratch 1%nat))) in R.
    lia. }
  pose proof (all_from_spec _ _ _ temp_show_check_all celsius
                ltac:(rewrite Z2Nat.id; lia)) as H.
  apply shows_spec in H. destruct H as (glass & Hp & Hrow & Hin).
  exists (fst (temp_show celsius)), glass.
  split; [reflexivity|]. split; [|split; assumption].
  cbn [fst]. unfold picture in *.
  rewrite !lcd_ops_app.
  replace (lcd_ops (temp_search found)) with (@nil lcd_op)
    by (destruct found; reflexivity).
  exact Hp.
Qed.

Lemma temp_shows_celsius_witness :
  exists shown glass,
    temp example_crc8 true (ds_addr example_readings)
         (ds_scratch example_readings)
    = (temp_search true ++ temp_convert (ds_addr example_readings) ++ shown,
       Some tt)
    /\ picture (fst (temp example_crc8 true (ds_addr example_readings)
                          (ds_scratch example_readings))) = Some glass
    /\ row_cells glass 0 0 6 = left_aligned (temp_text 25)
    /\ within glass 0 0 5 = true.
Proof.
  apply (temp_shows_celsius example_crc8 true (ds_addr example_readings)
           (ds_scratch example_readings)).
  - reflexivity.
  - vm_compute. discriminate.
Defined.

(** ** The battery voltage *)

Lemma voltage_unfold (analog : Z) :
  exists tested,
    voltage analog =
    ([Lcd (SetCursor 7 0); Lcd (PrintStr "     "); Lcd (SetCursor 7 0);
      FDiv tested (F32.of_Z 10); FDiv tested (F32.of_Z 10);
      Lcd (PrintFloat (volts_shown analog)); Lcd (PrintStr " V")],
     Some tt).
Proof.
  eexists. unfold voltage, volts_shown, abs.
  cbv beta iota zeta delta [bind fdiv emit ret lcd].
  destruct (F32.gtb _ F32.zero); reflexivity.
Qed.

Lemma volts_check_all : all_from 1023 0 volts_check = true.
Proof. vm_cast_no_check (eq_refl true). Qed.

(** X6.  For every reading of the converter from 0 to 1022, the value that
    [voltage] prints lies between 0 and 15 and is not above the value
    printed for the next reading; the reading 1023 prints exactly 15. *)
Theorem voltage_bounded_monotone (analog : Z) :
  0 <= analog < 1023 ->
  In (Lcd (PrintFloat (volts_shown analog))) (fst (voltage analog))
  /\ F32.leb F32.zero (volts_shown analog) = true
  /\ F32.leb (volts_shown analog) (F32.of_Z 15) = true
  /\ F32.leb (volts_shown analog) (volts_shown (analog + 1)) = true
  /\ volts_shown 1023 = F32.of_Z 15.
Proof.
  intros H. split.
  - destruct (voltage_unfold analog) as [t ->]. cbn [fst]. simpl. tauto.
  - pose proof (all_from_spec _ _ 0 volts_check_all analog
                  ltac:(simpl; lia)) as C.
    unfold volts_check in C. cbv zeta in C.
    apply andb_true_iff in C. destruct C as [C C3].
    apply andb_true_iff in C. destruct C as [C1 C2].
    repeat split; assumption.
Qed.

Lemma voltage_bounded_monotone_witness :
  F32.leb (volts_shown 818) (volts_shown (818 + 1)) = true.
Proof. apply (voltage_bounded_monotone 818). lia. Defined.

(** ** The fuel gauge *)

Lemma percent_check_all : all_from 1024 0 percent_check = true.
Proof. vm_cast_no_check (eq_refl true). Qed.

Lemma percent_facts (a : Z) :
  0 <= a < 1024 ->
  let p := fuel_percent (Int.s16 a) in
  p = a * 300 / 1023
  /\ (p >=? 80) = (273 <=? a)
  /\ (p <=? 19) = (a <=? 68)
  /\ (p <=? 100) = (a <=? 344).
Proof.
  intros H. cbv zeta.
  pose proof (all_from_spec _ _ 0 percent_check_all a ltac:(simpl; lia)) as C.
  unfold percent_check in C. cbv zeta in C.
  apply andb_true_iff in C. destruct C as [C C4].
  apply andb_true_iff in C. destruct C as [C C3].
  apply andb_true_iff in C. destruct C as [C1 C2].
  apply Z.eqb_eq in C1. apply eqb_prop in C2, C3, C4. auto.
Qed.

(** X7.  For every reading of the converter from 0 to 1023, the percentage
    computed in floating point on line 207 is exactly the integer part of
    300 times the reading over 1023; it lies between 0 and 300, and exceeds
    100 for the readings above 344. *)
Theorem fuel_percent_exact (analog : Z) :
  0 <= analog < 1024 ->
  fuel_percent (Int.s16 analog) = analog * 300 / 1023
  /\ 0 <= fuel_percent (Int.s16 analog) <= 300
  /\ (fuel_percent (Int.s16 analog) <= 100 <-> analog <= 344).
Proof.
  intros H. destruct (percent_facts analog H) as (E & _ & _ & C).
  split; [exact E|]. split.
  - rewrite E. split.
    + apply Z.div_pos; lia.
    + apply Z.div_le_upper_bound; lia.
  - rewrite <- Z.leb_le, C, Z.leb_le. tauto.
Qed.

Lemma fuel_percent_exact_witness :
  fuel_percent (Int.s16 341) = 341 * 300 / 1023.
Proof. apply (fuel_percent_exact 341). lia. Defined.

Lemma display_only_ret {A : Type} (a : A) : display_only (ret a).
Proof. split; [exists a; reflexivity | constructor]. Qed.

Lemma display_only_lcd (op : lcd_op) : display_only (lcd op).
Proof.
  split; [exists tt; reflexivity|].
  constructor; [exists op; reflexivity | constructor].
Qed.

Lemma display_only_bind {A B : Type} (c : Eff A) (k : A -> Eff B) :
  display_only c -> (forall a, display_only (k a)) ->
  display_only (bind c k).
Proof.
  intros [[a Ha] Hc] Hk. destruct c as [tr r]. cbn [fst snd] in *. subst r.
  specialize (Hk a). destruct Hk as [[b Hb] Hf].
  unfold bind. destruct (k a) as [tr' r']. cbn [fst snd] in *.
  split; [exists b; exact Hb|]. apply Forall_app. split; assumption.
Qed.

Lemma full_bars_display_only (n : nat) :
  forall i p, display_only (full_bars n i p).
Proof.
  induction n as [|n IH]; intros i p; cbn [full_bars].
  - apply display_only_ret.
  - destruct ((i <=? 10) && ((i <? Z.quot p 10) && (p >? 5))).
    + apply display_only_bind; [apply display_only_lcd | intros _; apply IH].
    + apply display_only_ret.
Qed.

Lemma clean_bars_display_only (n : nat) :
  forall i, display_only (clean_bars n i).
Proof.
  induction n as [|n IH]; intros i; cbn [clean_bars].
  - apply display_only_ret.
  - destruct (i <=? 10).
    + apply display_only_bind; [apply display_only_lcd | intros _].
      apply display_only_bind; [apply display_only_lcd | intros _; apply IH].
    + apply display_only_ret.
Qed.

Ltac display_steps :=
  repeat first
    [ apply display_only_lcd
    | apply display_only_ret
    | apply full_bars_display_only
    | apply clean_bars_display_only
    | apply display_only_bind; [|intros ?] ].

Lemma fuel_display_display_only (p : Z) : display_only (fuel_display p).
Proof.
  unfold fuel_display.
  apply display_only_bind; [apply display_only_lcd | intros _].
  apply display_only_bind; [apply full_bars_display_only | intros _].
  apply display_only_bind.
  { destruct (Z.rem p 10 >=? 5); display_steps. }
  intros cleanup.
  apply display_only_bind; [apply clean_bars_display_only | intros _].
  apply display_only_bind; [apply display_only_lcd | intros _].
  apply display_only_bind; [apply display_only_lcd | intros _].
  apply display_only_bind.
  { destruct (p =? 100); [|destruct (p <=? 9)]; display_steps. }
  intros _. display_steps.
Qed.

Lemma display_only_quiet {A : Type} (c : Eff A) :
  display_only c -> filter buzzer_event (fst c) = [].
Proof.
  intros [_ H]. induction H as [|e tr [op ->] _ IH]; [reflexivity|].
  cbn [filter buzzer_event]. exact IH.
Qed.

Lemma fuel_unfold (analog : Z) (g : globals) :
  let p := fuel_percent (Int.s16 analog) in
  fuel analog g =
  (fst (alarm_policy p (buzzDIS g)) ++ fst (fuel_display p),
   Some (set_buzzDIS g (latch_after (alarm_policy p (buzzDIS g)) (buzzDIS g)))).
Proof.
  cbv zeta. unfold fuel. cbv zeta.
  set (p := fuel_percent (Int.s16 analog)).
  destruct (fuel_display_display_only p) as [[[] Hr] _].
  rewrite alarm_policy_cases. unfold latch_after, result, bind, ret.
  destruct (fuel_display p) as [tr r]. cbn [fst snd] in *. subst r.
  destruct (p >=? 80); [|destruct (p <=? 19)]; cbn [fst snd];
    rewrite ?app_nil_r; reflexivity.
Qed.

(** X8.  In terms of the reading of the fuel gauge (0 to 1023): [fuel]
    sounds the alarm exactly when the reading is at most 68 and [buzzDIS]
    is zero; it leaves [buzzDIS] at 0 for a reading of 273 or more, at 1
    for a reading of 68 or less, and unchanged in between; no other
    variable changes. *)
Theorem fuel_alarm_readings (analog : Z) (g : globals) :
  0 <= analog < 1024 ->
  filter buzzer_event (fst (fuel analog g))
  = (if (analog <=? 68) && (buzzDIS g =? 0) then alarm_pattern else [])
  /\ snd (fuel analog g)
     = Some (set_buzzDIS g (if 273 <=? analog then 0
                            else if analog <=? 68 then 1
                            else buzzDIS g)).
Proof.
  intros H. rewrite fuel_unfold. cbv zeta.
  destruct (percent_facts analog H) as (_ & C80 & C19 & _). cbv zeta in *.
  set (p := fuel_percent (Int.s16 analog)) in *.
  cbn [fst snd]. rewrite filter_app.
  rewrite (display_only_quiet _ (fuel_display_display_only p)), app_nil_r.
  rewrite alarm_policy_cases. unfold latch_after, result.
  rewrite C80, C19.
  destruct (Z.leb_spec 273 analog); destruct (Z.leb_spec analog 68);
    try lia; cbn [fst snd andb]; try (split; reflexivity).
  destruct (buzzDIS g =? 0); split; reflexivity.
Qed.

Lemma fuel_alarm_readings_witness :
  filter buzzer_event (fst (fuel 11 power_on)) = alarm_pattern
  /\ snd (fuel 11 power_on) = Some (set_buzzDIS power_on 1).
Proof. apply (fuel_alarm_readings 11 power_on). lia. Defined.

Lemma bar_check_all : all_from 101 0 bar_check = true.
Proof. vm_cast_no_check (eq_refl true). Qed.

(** X9.  For every percentage from 0 to 100, [fuel()] leaves on the second
    row: in columns 0 to 9 one full block for each ten percent, then a half
    block when five percent or more remain, then blanks; the end mark in
    column 10; and in columns 16 to 19 the number and the percent sign,
    with blanks before them.  Columns 11 to 15 are not written, nor is any
    other row. *)
Theorem fuel_bar_picture (percent : Z) :
  0 <= percent <= 100 ->
  exists glass,
    fuel_picture percent = Some glass
    /\ row_cells glass 1 0 20
       = bar_cells percent 0 10 ++ [Some 2] ++ repeat None 5
         ++ right_aligned (decimal percent ++ "%")
    /\ within glass 1 0 19 = true.
Proof.
  intros H. apply shows_spec.
  apply (all_from_spec _ _ 0 bar_check_all percent). simpl. lia.
Qed.

Lemma fuel_bar_picture_witness :
  exists glass,
    fuel_picture 95 = Some glass
    /\ row_cells glass 1 0 20
       = bar_cells 95 0 10 ++ [Some 2] ++ repeat None 5
         ++ right_aligned (decimal 95 ++ "%")
    /\ within glass 1 0 19 = true.
Proof. apply (fuel_bar_picture 95). lia. Defined.

Lemma overflow_check_all : all_from 301 0 overflow_check = true.
Proof. vm_cast_no_check (eq_refl true). Qed.

(** X10.  What [fuel] writes stays on the 20 columns of the second row
    exactly for the readings up to 344 (percentages up to 100); for the
    readings from 345 to 1023 the percent sign goes past column 19. *)
Theorem fuel_text_overflows (analog : Z) (g : globals) :
  0 <= analog < 1024 ->
  exists glass,
    picture (map Dev (fst (fuel analog g))) = Some glass
    /\ (within glass 1 0 19 = true <-> analog <= 344).
Proof.
  intros H. rewrite fuel_unfold. cbv zeta.
  destruct (percent_facts analog H) as (E & _ & _ & C100). cbv zeta in *.
  set (p := fuel_percent (Int.s16 analog)) in *.
  assert (0 <= p <= 300) as Hp.
  { rewrite E. split; [apply Z.div_pos; lia|].
    apply Z.div_le_upper_bound; lia. }
  pose proof (all_from_spec _ _ 0 overflow_check_all p ltac:(simpl; lia)) as C.
  unfold overflow_check, fuel_picture, picture in C.
  cbn [fst]. unfold picture. rewrite map_app, lcd_ops_app.
  assert (lcd_ops (map Dev (fst (alarm_policy p (buzzDIS g)))) = []) as ->.
  { rewrite alarm_policy_cases.
    destruct (p >=? 80); [reflexivity|].
    destruct (p <=? 19); [|reflexivity].
    destruct (buzzDIS g =? 0); reflexivity. }
  cbn [app].
  destruct (paint (lcd_ops (map Dev (fst (fuel_display p)))) 0 0 [])
    as [glass|]; [|discriminate C].
  exists glass. split; [reflexivity|].
  apply eqb_prop in C. rewrite C, C100. apply Z.leb_le.
Qed.

Lemma fuel_text_overflows_witness :
  exists glass,
    picture (map Dev (fst (fuel 512 power_on))) = Some glass
    /\ (within glass 1 0 19 = true <-> 512 <= 344).
Proof. apply (fuel_text_overflows 512 power_on). lia. Defined.

(** ** The number that [rpm] prints *)

Lemma s16_wrapped_low (z : Z) :
  -65536 <= z < -32768 -> Int.s16 z = z + 65536.
Proof.
  intros H. unfold Int.s16. cbv zeta.
  replace (z mod 65536) with (z + 65536)
    by (apply (Z.mod_unique_pos _ _ (-1)); lia).
  destruct (Z.ltb_spec (z + 65536) 32768); lia.
Qed.

Lemma s16_wrapped_high (z : Z) :
  32768 <= z < 65536 -> Int.s16 z = z - 65536.
Proof.
  intros H. unfold Int.s16. cbv zeta. rewrite Z.mod_small by lia.
  destruct (Z.ltb_spec z 32768); lia.
Qed.

Lemma rpm_defined (pulse : Z) :
  Int.s16 pulse <> 0 ->
  rpm pulse =
  ([IDiv 60000 (Int.s16 pulse); Lcd (SetCursor 15 2); Lcd (PrintStr "     ");
    Lcd (SetCursor 15 2); Lcd (PrintInt (rpm_shown pulse))],
   Some tt).
Proof.
  intros H. unfold rpm, idiv, rpm_shown.
  cbv beta iota zeta delta [bind emit ret lcd].
  destruct (Z.eqb_spec (Int.s16 pulse) 0) as [E|_]; [contradiction|].
  reflexivity.
Qed.


Lemma rpm_shown_cases (pulse : Z) :
  1 <= pulse < 65536 ->
  Int.s16 pulse <> 0
  /\ (rpm_shown pulse = 60000 / pulse <-> 2 <= pulse <= 32767).
Proof.
  intros H. unfold rpm_shown.
  destruct (Z_lt_le_dec pulse 32768) as [Hlo|Hhi].
  - rewrite (s16_small pulse) by lia. split; [lia|].
    rewrite Z.quot_div_nonneg by lia.
    destruct (Z.eq_dec pulse 1) as [->|Hne].
    + split; [vm_compute; discriminate | lia].
    + assert (0 <= 60000 / pulse <= 30000) as B.
      { split; [apply Z.div_pos; lia|].
        apply Z.div_le_upper_bound; lia. }
      rewrite s16_small by lia. split; [lia | reflexivity].
  - rewrite (s16_wrapped_high pulse) by lia. split; [lia|].
    assert (0 <= 60000 / pulse < 2) as T.
    { split; [apply Z.div_pos; lia|].
      apply Z.div_lt_upper_bound; lia. }
    replace (pulse - 65536) with (- (65536 - pulse)) by lia.
    rewrite Z.quot_opp_r by lia.
    rewrite Z.quot_div_nonneg by lia.
    assert (1 <= 60000 / (65536 - pulse) <= 60000) as Q.
    { split; [apply Z.div_le_lower_bound; lia|].
      apply Z.div_le_upper_bound; lia. }
    destruct (Z_lt_le_dec (- (60000 / (65536 - pulse))) (-32768)) as [W|W].
    + rewrite s16_wrapped_low by lia. lia.
    + rewrite s16_small by lia. lia.
Qed.

(** X11.  For a pulse width from 1 to 65535, [rpm] ends and prints a
    number; the number is the quotient of 60000 by the pulse width exactly
    for the widths from 2 to 32767.  A width of 1 gives a quotient that
    does not fit the [int] it is stored in, and a width of 32768 or more
    is negative once stored in the [int duration]. *)
Theorem rpm_value (pulse : Z) :
  1 <= pulse < 65536 ->
  rpm pulse =
    ([IDiv 60000 (Int.s16 pulse); Lcd (SetCursor 15 2);
      Lcd (PrintStr "     "); Lcd (SetCursor 15 2);
      Lcd (PrintInt (rpm_shown pulse))],
     Some tt)
  /\ (rpm_shown pulse = 60000 / pulse <-> 2 <= pulse <= 32767)
  /\ rpm_shown 1 = -5536
  /\ (32768 <= pulse -> rpm_shown pulse < 0 \/ 5536 <= rpm_shown pulse).
Proof.
  intros H. destruct (rpm_shown_cases pulse H) as [Hnz Hv].
  split; [apply rpm_defined; exact Hnz|]. split; [exact Hv|].
  split; [reflexivity|].
  intros Hhi. unfold rpm_shown.
  rewrite (s16_wrapped_high pulse) by lia.
  replace (pulse - 65536) with (- (65536 - pulse)) by lia.
  rewrite Z.quot_opp_r by lia. rewrite Z.quot_div_nonneg by lia.
  assert (1 <= 60000 / (65536 - pulse) <= 60000) as Q.
  { split; [apply Z.div_le_lower_bound; lia|].
    apply Z.div_le_upper_bound; lia. }
  destruct (Z_lt_le_dec (- (60000 / (65536 - pulse))) (-32768)) as [W|W].
  - rewrite s16_wrapped_low by lia. lia.
  - rewrite s16_small by lia. lia.
Qed.

Lemma rpm_value_witness :
  rpm 30 =
    ([IDiv 60000 (Int.s16 30); Lcd (SetCursor 15 2);
      Lcd (PrintStr "     "); Lcd (SetCursor 15 2);
      Lcd (PrintInt (rpm_shown 30))],
     Some tt).
Proof. apply (rpm_value 30). lia. Defined.

(** ** The timed blocks of [loop] *)

(** X12.  The test of a timed block compares the time elapsed since the
    block last ran, counted modulo 2^32: it gives the same answer when
    [millis()] has wrapped around in between. *)
Theorem due_across_rollover (last elapsed period : Z) :
  0 <= last < 4294967296 -> 0 <= elapsed < 4294967296 ->
  due (Int.u32 (last + elapsed)) last period = (elapsed >=? period).
Proof.
  intros Hl He. unfold due, Int.u32.
  rewrite Zminus_mod_idemp_l.
  replace (last + elapsed - last) with elapsed by lia.
  rewrite Z.mod_small by lia. reflexivity.
Qed.

Lemma due_across_rollover_witness :
  due (Int.u32 (4294967000 + 1000)) 4294967000 1000 = (1000 >=? 1000).
Proof. apply (due_across_rollover 4294967000 1000 1000); lia. Defined.

Lemma io_bind_some {A B : Type} (c : IO A) (k : A -> IO B) (a : A) :
  snd c = Some a -> io_bind c k = (fst c ++ fst (k a), snd (k a)).
Proof.
  destruct c as [tr r]. cbn [fst snd]. intros ->. unfold io_bind.
  destruct (k a); reflexivity.
Qed.

Lemma io_bind_none {A B : Type} (c : IO A) (k : A -> IO B) :
  snd c = None -> io_bind c k = (fst c, None).
Proof. destruct c as [tr r]. cbn [fst snd]. intros ->. reflexivity. Qed.

Lemma rtc_show_result (hours minutes : Z) :
  snd (rtc_show hours minutes) = Some tt.
Proof.
  unfold rtc_show. destruct (hours >=? 10); destruct (minutes <? 10);
    reflexivity.
Qed.

Lemma rtc_show_trace (hours minutes : Z) :
  existsb is_attach (fst (rtc_show hours minutes)) = false.
Proof.
  unfold rtc_show. destruct (hours >=? 10); destruct (minutes <? 10);
    reflexivity.
Qed.

Lemma rtc_loop_ends (n : nat) :
  forall buffer, (List.length buffer <= n)%nat ->
  snd (rtc_loop buffer) = Some tt
  /\ existsb is_attach (fst (rtc_loop buffer)) = false.
Proof.
  induction n as [|n IH]; intros buffer Hlen.
  - destruct buffer; [split; reflexivity | simpl in Hlen; lia].
  - destruct buffer as [|s [|m [|h rest]]]; cbn [rtc_loop].
    + split; reflexivity.
    + pose proof (rtc_show_result (decode_hours 255) (decode_minutes 255)) as R.
      pose proof (rtc_show_trace (decode_hours 255) (decode_minutes 255)) as T.
      destruct (rtc_show (decode_hours 255) (decode_minutes 255)) as [tr r].
      cbn [fst snd] in *. subst r. split; [reflexivity | exact T].
    + pose proof (rtc_show_result (decode_hours 255) (decode_minutes (u8 m)))
        as R.
      pose proof (rtc_show_trace (decode_hours 255) (decode_minutes (u8 m)))
        as T.
      destruct (rtc_show (decode_hours 255) (decode_minutes (u8 m))) as [tr r].
      cbn [fst snd] in *. subst r. split; [reflexivity | exact T].
    + destruct (IH rest ltac:(simpl in Hlen; lia)) as [IR IT].
      pose proof (rtc_show_result (decode_hours (u8 h)) (decode_minutes (u8 m)))
        as R.
      pose proof (rtc_show_trace (decode_hours (u8 h)) (decode_minutes (u8 m)))
        as T.
      destruct (rtc_show (decode_hours (u8 h)) (decode_minutes (u8 m)))
        as [tr r].
      destruct (rtc_loop rest) as [tr' r'].
      cbn [fst snd] in *. subst r r'. split; [reflexivity|].
      cbn [io_bind bus io_emit app fst snd existsb is_attach orb].
      rewrite existsb_app, T, IT. reflexivity.
Qed.

Lemma rtc_ends (buffer : list Z) :
  snd (rtc buffer) = Some tt
  /\ existsb is_attach (fst (rtc buffer)) = false.
Proof.
  destruct (rtc_loop_ends (List.length buffer) buffer (le_n _)) as [R T].
  unfold rtc. destruct (rtc_loop buffer) as [tr r].
  cbn [fst snd] in *. subst r. split; [reflexivity | exact T].
Qed.


Lemma temp_ends (crc8 : list Z -> Z) (found : bool) (addr : list Z)
      (scratch : nat -> Z) :
  snd (temp crc8 found addr scratch) = Some tt
  /\ existsb is_attach (fst (temp crc8 found addr scratch)) = false.
Proof.
  rewrite temp_unfold.
  destruct (crc8 (firstn 7 addr) =? nth 7 addr 0); cbn [fst snd].
  - split; [reflexivity|].
    rewrite !existsb_app.
    replace (existsb is_attach (temp_search found)) with false
      by (destruct found; reflexivity).
    cbn [orb]. unfold temp_show.
    destruct (_ <? 100); reflexivity.
  - split; [reflexivity | destruct found; reflexivity].
Qed.

Lemma voltage_result (analog : Z) : snd (voltage analog) = Some tt.
Proof. destruct (voltage_unfold analog) as [t ->]. reflexivity. Qed.

Lemma fuel_result (analog : Z) (g : globals) :
  exists latch, snd (fuel analog g) = Some (set_buzzDIS g latch).
Proof. rewrite fuel_unfold. eexists. reflexivity. Qed.

Lemma lift_result {A : Type} (c : Eff A) : snd (lift c) = snd c.
Proof. reflexivity. Qed.

(** X13.  A pass through the timed blocks that ends leaves [time_now] at
    the value of [millis()], moves the time stamp of each block to that
    value exactly when the block was due, and changes no other variable
    than [buzzDIS], and that one only when the slow block was due. *)
Theorem loop_timed_state (crc8 : list Z -> Z) (r : readings) (c c' : clocks)
        (g g' : globals) :
  snd (loop_timed crc8 r c g) = Some (c', g') ->
  let now := Int.u32 (millis r) in
  time_now c' = now
  /\ temper_time c'
     = (if due now (temper_time c) 1000 then now else temper_time c)
  /\ rtc_time c'
     = (if due now (rtc_time c) 15000 then now else rtc_time c)
  /\ (exists latch, g' = set_buzzDIS g latch)
  /\ (due now (rtc_time c) 15000 = false -> g' = g).
Proof.
  intros H now. unfold loop_timed in H. cbv zeta in H. fold now in H.
  destruct (temp_ends crc8 (ds_found r) (ds_addr r) (ds_scratch r)) as [Rt _].
  pose proof (voltage_result (pin_A2 r)) as Rv.
  destruct (rtc_ends (wire_buffer r)) as [Rr _].
  destruct (fuel_result (pin_A1 r) g) as [latch Rf].
  assert (forall temper,
             snd (if due now (rtc_time c) 15000
                  then
                    io_bind (rtc (wire_buffer r))
                      (fun _ => io_bind (lift (fuel (pin_A1 r) g))
                        (fun g' => io_ret (mkClocks now now temper, g')))
                  else io_ret (mkClocks now (rtc_time c) temper, g))
             = Some (if due now (rtc_time c) 15000
                     then (mkClocks now now temper, set_buzzDIS g latch)
                     else (mkClocks now (rtc_time c) temper, g))) as Slow.
  { intros temper. destruct (due now (rtc_time c) 15000); [|reflexivity].
    rewrite (io_bind_some _ _ tt Rr). cbn [snd].
    rewrite (io_bind_some _ _ (set_buzzDIS g latch)) by exact Rf.
    reflexivity. }
  destruct (due now (temper_time c) 1000).
  - rewrite (io_bind_some _ _ now) in H.
    + cbn [snd] in H. rewrite Slow in H.
      destruct (due now (rtc_time c) 15000); injection H as <- <-;
        cbn [time_now temper_time rtc_time];
        repeat split; try reflexivity; try discriminate;
        try (exists latch; reflexivity).
      exists (buzzDIS g). destruct g; reflexivity.
    + rewrite (io_bind_some _ _ tt Rt). cbn [snd].
      rewrite (io_bind_some _ _ tt) by exact Rv. cbn [snd].
      destruct (snd (lift (rpm (pulse_width r)))) as [[]|] eqn:Rp.
      * rewrite (io_bind_some _ _ tt Rp). reflexivity.
      * exfalso.
        rewrite (io_bind_none (io_bind _ _)) in H; [discriminate H|].
        rewrite (io_bind_some _ _ tt Rt). cbn [snd].
        rewrite (io_bind_some _ _ tt) by exact Rv. cbn [snd].
        rewrite (io_bind_none _ _ Rp). reflexivity.
  - rewrite (io_bind_some (io_ret (temper_time c)) _ (temper_time c) eq_refl)
      in H.
    cbn [snd] in H. rewrite Slow in H.
    destruct (due now (rtc_time c) 15000); injection H as <- <-;
      cbn [time_now temper_time rtc_time];
      repeat split; try reflexivity; try discriminate;
      try (exists latch; reflexivity).
    exists (buzzDIS g). destruct g; reflexivity.
Qed.

Lemma loop_timed_state_witness :
  let now := Int.u32 (millis example_readings) in
  let c := mkClocks 0 0 0 in
  let c' := mkClocks 20000 20000 20000 in
  time_now c' = now
  /\ temper_time c'
     = (if due now (temper_time c) 1000 then now else temper_time c)
  /\ rtc_time c'
     = (if due now (rtc_time c) 15000 then now else rtc_time c)
  /\ (exists latch, set_buzzDIS power_on 1 = set_buzzDIS power_on latch)
  /\ (due now (rtc_time c) 15000 = false
      -> set_buzzDIS power_on 1 = power_on).
Proof.
  apply (loop_timed_state example_crc8 example_readings (mkClocks 0 0 0)
           (mkClocks 20000 20000 20000) power_on (set_buzzDIS power_on 1)).
  vm_compute. reflexivity.
Defined.




(** ** Pulse counters and the distance test *)

Lemma pulses_counter (src x : source) (n : nat) (g : globals) :
  Int.in_u16 (counter src g) ->
  counter src (pulses x n g)
  = if source_eqb src x then Int.u16 (counter src g + Z.of_nat n)
    else counter src g.
Proof.
  intros Hg. unfold pulses. induction n as [|n IH].
  - cbn [Nat.iter]. rewrite Z.add_0_r.
    unfold Int.u16. unfold Int.in_u16 in Hg. rewrite Z.mod_small by lia.
    destruct (source_eqb src x); reflexivity.
  - change (Nat.iter (S n) (handler x) g)
      with (handler x (Nat.iter n (handler x) g)).
    rewrite handler_counter, IH.
    destruct (source_eqb src x); [|reflexivity].
    unfold Int.u16. rewrite Zplus_mod_idemp_l. f_equal. lia.
Qed.

Lemma pulses_frame (x : source) (n : nat) (g : globals) :
  buzzDIS (pulses x n g) = buzzDIS g
  /\ lastRead (pulses x n g) = lastRead g
  /\ forall src, copy src (pulses x n g) = copy src g.
Proof.
  unfold pulses. induction n as [|n (B & L & C)].
  - repeat split.
  - change (Nat.iter (S n) (handler x) g)
      with (handler x (Nat.iter n (handler x) g)).
    rewrite <- B, <- L. repeat split; try (destruct x; reflexivity).
    intros src. rewrite <- C. destruct x, src; reflexivity.
Qed.

(** X16.  [n] rising edges on one line, handled with interrupts enabled,
    add [n] modulo 65536 to the counter of that line and change nothing
    else: 65536 of them bring the counter back to where it was. *)
Theorem pulses_add_modulo (src x : source) (n : nat) (g : globals) :
  Int.in_u16 (counter src g) ->
  counter src (pulses x n g)
  = (if source_eqb src x then Int.u16 (counter src g + Z.of_nat n)
     else counter src g)
  /\ counter src (pulses x (Z.to_nat 65536) g) = counter src g
  /\ copy src (pulses x n g) = copy src g
  /\ buzzDIS (pulses x n g) = buzzDIS g
  /\ lastRead (pulses x n g) = lastRead g.
Proof.
  intros Hg. destruct (pulses_frame x n g) as (B & L & C).
  repeat split; auto using pulses_counter.
  rewrite pulses_counter by exact Hg.
  destruct (source_eqb src x); [|reflexivity].
  unfold Int.u16. unfold Int.in_u16 in Hg.
  rewrite Z2Nat.id by lia. change 65536 with (1 * 65536) at 1.
  rewrite Z.mod_add by lia. apply Z.mod_small. lia.
Qed.

Lemma pulses_add_modulo_witness :
  counter Wheel (pulses Wheel 3 power_on)
  = (if source_eqb Wheel Wheel
     then Int.u16 (counter Wheel power_on + Z.of_nat 3)
     else counter Wheel power_on)
  /\ counter Wheel (pulses Wheel (Z.to_nat 65536) power_on) = counter Wheel power_on
  /\ copy Wheel (pulses Wheel 3 power_on) = copy Wheel power_on
  /\ buzzDIS (pulses Wheel 3 power_on) = buzzDIS power_on
  /\ lastRead (pulses Wheel 3 power_on) = lastRead power_on.
Proof.
  apply (pulses_add_modulo Wheel Wheel 3 power_on).
  unfold Int.in_u16. simpl. lia.
Defined.

Lemma distance_check_all : all_from (Z.to_nat 65536) 0 distance_check = true.
Proof. vm_cast_no_check (eq_refl true). Qed.

(** X17.  With the constants of the sketch the test of line 349, made in
    single precision, passes exactly from 262 wheel pulses on: 261 turns
    of the wheel are 499.815 m, 262 are 501.73 m. *)
Theorem distance_reached_at_262 (g : globals) :
  Int.in_u16 (countWheel g) ->
  distance_reached g = (262 <=? countWheel g).
Proof.
  intros H. unfold distance_reached.
  pose proof (all_u16_spec _ distance_check_all _ H) as C.
  unfold distance_check in C. apply Bool.eqb_prop in C. exact C.
Qed.

Lemma distance_reached_at_262_witness :
  distance_reached (set_countWheel power_on 261) = (262 <=? 261).
Proof.
  apply (distance_reached_at_262 (set_countWheel power_on 261)).
  unfold Int.in_u16. simpl. lia.
Defined.


